(** * Evasio-Nova: the dual-store article coordinator and rating engine

    A shallow embedding of [src/firebase/wiki.ts]: the article operations
    ([createArticle], [updateArticle], [deleteArticle], [getAllArticles]),
    the three rating increments, the author aggregate
    ([updateAuthorScore], [updateAuthorScoreOnArticleCreate]) and the
    aggregate reads.

    The two Firestore databases ([db] and [searchDb]) are finite maps from
    document id to document; every [async] function is a computation in a
    state-and-exception monad over the [World]; [try]/[catch] is
    [tryCatch].  A Firestore call may reject: the [World] carries the
    outcome of the calls still to come, one boolean per call. *)

From Stdlib Require Import ZArith.
From stdpp Require Import gmap strings list fin_maps.

Local Open Scope Z_scope.

(** ** External collaborators *)

(** [utils/articleScoreCalculator] is imported, not defined, by the module:
    the score function and the arithmetic of its results are an interface.
    A JavaScript number that may be [undefined] at run time is an
    [option Z]; [score_falsy] tells the scores that [||] replaces (0, NaN). *)
Class ScoreFunction := {
  Score : Type;
  score_zero : Score;
  score_add : Score → Score → Score;
  score_div : Score → Z → Score;
  score_falsy : Score → bool;
  calculateArticleScore : string → option Z → option Z → option Z → Score
}.

(** [utils/cacheManager] likewise: [updateArticleCount] may throw ([None]),
    [deleteCache] removes one key. *)
Class CacheManager `{ScoreFunction} := {
  Cache : Type;
  updateArticleCount : string → option Z → option Z → Score → Cache → option Cache;
  deleteCache : string → Cache → Cache
}.

(** ** Data model *)

(** [Timestamp | string]. *)
Inductive TimeValue :=
| TimeString (s : string)
| Timestamp (t : Z).

(** [x || 0] on a counter. *)
Definition orZero (x : option Z) : Z := default 0 x.

(** [date || now]: the only falsy [TimeValue] is the empty string. *)
Definition dateOr (d now : TimeValue) : TimeValue :=
  match d with
  | TimeString EmptyString => now
  | _ => d
  end.

(** [s || t] on strings. *)
Definition stringOr (s t : string) : string :=
  match s with
  | EmptyString => t
  | _ => s
  end.

Inductive Error :=
| Unavailable              (* a Firestore call rejected *)
| DocNotFound              (* updateDoc on a document that does not exist *)
| ArticleNotFound          (* Error("記事が見つかりません") *)
| ArticleOrAuthorNotFound  (* Error('Article or author not found') *)
| PermissionDenied         (* Error('管理者権限がありません') *)
| MainDbWriteFailed (cause : Error)    (* Error(`メインDBへの書き込みに失敗しました: ...`) *)
| SearchDbWriteFailed (cause : Error). (* Error(`検索用DBへの書き込みに失敗しました: ...`) *)

(** The console lines the claims speak of; the tag names the call site. *)
Inductive LogEntry :=
| ErrGetArticle            (* console.error('記事取得エラー:') *)
| WarnSummaryComplement    (* console.warn('検索DB補完エラー:') *)
| ErrGetSummaries          (* console.error('記事概要一覧取得エラー:') *)
| ErrGetAllArticles        (* console.error('記事一覧取得エラー:') *)
| ErrMainDbSave            (* console.error("メインDB保存エラー:") *)
| ErrSearchDbSave          (* console.error("検索用DB保存エラー:") *)
| ErrMainDbCleanup         (* console.error("メインDB清掃エラー:") *)
| ErrCreateArticle         (* console.error('記事作成エラー:') *)
| ErrUpdateArticle         (* console.error('記事更新エラー:') *)
| ErrSearchDbDelete        (* console.error('検索用DB削除エラー:') *)
| ErrDeleteArticle         (* console.error('記事削除エラー:') *)
| ErrUsefulCount           (* console.error('役に立ったカウント更新エラー:') *)
| ErrLikeCount             (* console.error('いいねカウント更新エラー:') *)
| ErrDislikeCount          (* console.error('低評価カウント更新エラー:') *)
| WarnCacheUpdate          (* console.warn("キャッシュの更新に失敗:") *)
| ErrArticleRatings        (* console.error('記事評価取得エラー:') *)
| WarnSummaryMissing       (* console.warn('記事概要が見つかりません:') *)
| ErrArticleCount          (* console.error('記事カウント情報の取得に失敗:') *)
| ErrAuthorCount           (* console.error('著者カウント情報の取得に失敗:') *)
| ErrAuthorScore.          (* console.error('著者スコア更新エラー:') *)

Inductive Result (A : Type) :=
| Ok (a : A)
| Throw (e : Error).
Arguments Ok {A} a.
Arguments Throw {A} e.

(** The two singleton documents: [{ counts, lastUpdated }]. *)
Record CountsDoc (E : Type) := {
  counts : gmap string E;
  countsLastUpdated : Z
}.
Arguments counts {E} _.
Arguments countsLastUpdated {E} _.

Section Wiki.
Context `{CM : CacheManager}.

(** [interface WikiArticle]; also the shape of a document of [wikiArticles].
    The two counters the interface requires are optional here as well: a
    document read back from the main database does not carry them. *)
Record WikiArticle := {
  a_id : option string;
  a_title : string;
  a_description : string;
  a_content : string;
  a_tags : list string;
  a_author : string;
  a_authorId : string;
  a_imageUrl : option string;
  a_imageId : option string;
  a_date : TimeValue;
  a_lastUpdated : option TimeValue;
  a_usefulCount : option Z;
  a_likeCount : option Z;
  a_dislikeCount : option Z;
  a_deleteUrl : option string;
  a_articleScore : option Score
}.

(** [Partial<WikiArticle>]: a field is present or not. *)
Record ArticleUpdate := {
  u_id : option string;
  u_title : option string;
  u_description : option string;
  u_content : option string;
  u_tags : option (list string);
  u_author : option string;
  u_authorId : option string;
  u_imageUrl : option string;
  u_imageId : option string;
  u_date : option TimeValue;
  u_lastUpdated : option TimeValue;
  u_usefulCount : option Z;
  u_likeCount : option Z;
  u_dislikeCount : option Z;
  u_deleteUrl : option string;
  u_articleScore : option Score
}.

(** [interface ArticleSummary]; a document of [articleSummaries]. *)
Record ArticleSummary := {
  s_id : string;
  s_title : string;
  s_description : string;
  s_tags : list string;
  s_author : string;
  s_authorId : string;
  s_imageUrl : option string;
  s_date : TimeValue;
  s_lastUpdated : option TimeValue;
  s_usefulCount : option Z;
  s_likeCount : option Z;
  s_dislikeCount : option Z;
  s_articleScore : option Score
}.

(** An entry of the [counts] map of [counts/article]. *)
Record ArticleCounts := {
  c_likeCount : Z;
  c_usefulCount : Z;
  c_dislikeCount : option Z
}.

(** An entry of the [counts] map of [counts/author], as this module writes
    it: four fields, and no average. *)
Record AuthorCounts := {
  ac_likeCount : Z;
  ac_usefulCount : Z;
  ac_articleScoreSum : Score;
  ac_articleCount : Z
}.

(** What [getAuthorCountById] returns: the entry and the derived average. *)
Record AuthorCountsView := {
  v_counts : AuthorCounts;
  v_averageScore : Score
}.

(** ** The world *)

Record World := {
  wikiArticles : gmap string WikiArticle;         (* db, 'wikiArticles' *)
  articleSummaries : gmap string ArticleSummary;  (* searchDb, 'articleSummaries' *)
  countsArticle : option (CountsDoc ArticleCounts); (* searchDb, 'counts/article' *)
  countsAuthor : option (CountsDoc AuthorCounts);   (* searchDb, 'counts/author' *)
  cache : Cache;
  clock : Z;                 (* serverTimestamp() and Date.now() *)
  autoId : nat → string;     (* the ids addDoc generates *)
  allocated : nat;
  faults : list bool;        (* true: the next Firestore call rejects *)
  console : list LogEntry
}.

Definition withArticles (m : gmap string WikiArticle) (w : World) : World :=
  {| wikiArticles := m; articleSummaries := articleSummaries w;
     countsArticle := countsArticle w; countsAuthor := countsAuthor w;
     cache := cache w; clock := clock w; autoId := autoId w;
     allocated := allocated w; faults := faults w; console := console w |}.

Definition withSummaries (m : gmap string ArticleSummary) (w : World) : World :=
  {| wikiArticles := wikiArticles w; articleSummaries := m;
     countsArticle := countsArticle w; countsAuthor := countsAuthor w;
     cache := cache w; clock := clock w; autoId := autoId w;
     allocated := allocated w; faults := faults w; console := console w |}.

Definition withCountsArticle (d : option (CountsDoc ArticleCounts)) (w : World) : World :=
  {| wikiArticles := wikiArticles w; articleSummaries := articleSummaries w;
     countsArticle := d; countsAuthor := countsAuthor w;
     cache := cache w; clock := clock w; autoId := autoId w;
     allocated := allocated w; faults := faults w; console := console w |}.

Definition withCountsAuthor (d : option (CountsDoc AuthorCounts)) (w : World) : World :=
  {| wikiArticles := wikiArticles w; articleSummaries := articleSummaries w;
     countsArticle := countsArticle w; countsAuthor := d;
     cache := cache w; clock := clock w; autoId := autoId w;
     allocated := allocated w; faults := faults w; console := console w |}.

Definition withCache (c : Cache) (w : World) : World :=
  {| wikiArticles := wikiArticles w; articleSummaries := articleSummaries w;
     countsArticle := countsArticle w; countsAuthor := countsAuthor w;
     cache := c; clock := clock w; autoId := autoId w;
     allocated := allocated w; faults := faults w; console := console w |}.

Definition withAllocated (n : nat) (w : World) : World :=
  {| wikiArticles := wikiArticles w; articleSummaries := articleSummaries w;
     countsArticle := countsArticle w; countsAuthor := countsAuthor w;
     cache := cache w; clock := clock w; autoId := autoId w;
     allocated := n; faults := faults w; console := console w |}.

Definition withFaults (fs : list bool) (w : World) : World :=
  {| wikiArticles := wikiArticles w; articleSummaries := articleSummaries w;
     countsArticle := countsArticle w; countsAuthor := countsAuthor w;
     cache := cache w; clock := clock w; autoId := autoId w;
     allocated := allocated w; faults := fs; console := console w |}.

Definition withConsole (l : list LogEntry) (w : World) : World :=
  {| wikiArticles := wikiArticles w; articleSummaries := articleSummaries w;
     countsArticle := countsArticle w; countsAuthor := countsAuthor w;
     cache := cache w; clock := clock w; autoId := autoId w;
     allocated := allocated w; faults := faults w; console := l |}.

(** ** Asynchronous computations *)

Definition Async (A : Type) : Type := World → Result A * World.

Definition ret {A} (a : A) : Async A := fun w => (Ok a, w).

Definition throw {A} (e : Error) : Async A := fun w => (Throw e, w).

Definition bind {A B} (m : Async A) (k : A → Async B) : Async B :=
  fun w =>
    match m w with
    | (Ok a, w') => k a w'
    | (Throw e, w') => (Throw e, w')
    end.

(** [try { m } catch (e) { h e }]: what [m] wrote before it threw stays. *)
Definition tryCatch {A} (m : Async A) (h : Error → Async A) : Async A :=
  fun w =>
    match m w with
    | (Ok a, w') => (Ok a, w')
    | (Throw e, w') => h e w'
    end.

Definition logLine (l : LogEntry) : Async unit :=
  fun w => (Ok tt, withConsole (console w ++ [l]) w).

Definition reads {A} (f : World → A) : Async A := fun w => (Ok (f w), w).

Definition modify (f : World → World) : Async unit := fun w => (Ok tt, f w).

(** [Promise.all([m1, m2])]: both calls are issued, the first rejection wins. *)
Definition promiseAll {A B} (m1 : Async A) (m2 : Async B) : Async (A * B) :=
  fun w =>
    let (r1, w1) := m1 w in
    let (r2, w2) := m2 w1 in
    match r1, r2 with
    | Ok a, Ok b => (Ok (a, b), w2)
    | Throw e, _ => (Throw e, w2)
    | Ok _, Throw e => (Throw e, w2)
    end.

Notation "'await' x ':=' m 'in' k" := (bind m (fun x => k))
  (at level 10, x name, m at level 100, k at level 200).
Notation "'run' m 'in' k" := (bind m (fun _ => k))
  (at level 10, m at level 100, k at level 200).

(** ** Firestore *)

(** One round trip to Firestore: it rejects when the world says so. *)
Definition firestore : Async unit :=
  fun w =>
    match faults w with
    | true :: fs => (Throw Unavailable, withFaults fs w)
    | false :: fs => (Ok tt, withFaults fs w)
    | [] => (Ok tt, w)
    end.

(** [serverTimestamp()]. *)
Definition serverTimestamp (w : World) : TimeValue := Timestamp (clock w).

(** [getDoc(doc(db, 'wikiArticles', id))]. *)
Definition getArticleDoc (id : string) : Async (option WikiArticle) :=
  run firestore in reads (fun w => wikiArticles w !! id).

(** [addDoc(articlesRef, data)]: a new document under a generated id. *)
Definition addArticleDoc (data : WikiArticle) : Async string :=
  run firestore in
  fun w =>
    let id := autoId w (allocated w) in
    (Ok id, withAllocated (S (allocated w))
              (withArticles (<[id := data]> (wikiArticles w)) w)).

(** [updateDoc(doc(db, 'wikiArticles', id), fields)]: rejects when the
    document does not exist. *)
Definition updateArticleDoc (id : string) (f : WikiArticle → WikiArticle)
  : Async unit :=
  run firestore in
  fun w =>
    match wikiArticles w !! id with
    | Some a => (Ok tt, withArticles (<[id := f a]> (wikiArticles w)) w)
    | None => (Throw DocNotFound, w)
    end.

(** [deleteDoc(doc(db, 'wikiArticles', id))]. *)
Definition deleteArticleDoc (id : string) : Async unit :=
  run firestore in
  modify (fun w => withArticles (delete id (wikiArticles w)) w).

(** [getDoc(doc(searchDb, 'articleSummaries', id))]. *)
Definition getSummaryDoc (id : string) : Async (option ArticleSummary) :=
  run firestore in reads (fun w => articleSummaries w !! id).

(** [setDoc(doc(searchDb, 'articleSummaries', id), data)]. *)
Definition setSummaryDoc (id : string) (data : ArticleSummary) : Async unit :=
  run firestore in
  modify (fun w => withSummaries (<[id := data]> (articleSummaries w)) w).

(** [updateDoc(doc(searchDb, 'articleSummaries', id), fields)]. *)
Definition updateSummaryDoc (id : string)
    (f : ArticleSummary → ArticleSummary) : Async unit :=
  run firestore in
  fun w =>
    match articleSummaries w !! id with
    | Some s => (Ok tt, withSummaries (<[id := f s]> (articleSummaries w)) w)
    | None => (Throw DocNotFound, w)
    end.

(** [deleteDoc(doc(searchDb, 'articleSummaries', id))]. *)
Definition deleteSummaryDoc (id : string) : Async unit :=
  run firestore in
  modify (fun w => withSummaries (delete id (articleSummaries w)) w).

(** [getDocs(query(collection(searchDb, 'articleSummaries'),
    where('authorId', '==', authorId)))]: the documents with their ids, in
    the order the map lists them. *)
Definition getSummariesByAuthor (authorId : string)
  : Async (list (string * ArticleSummary)) :=
  run firestore in
  reads (fun w =>
    filter (fun kd => bool_decide (s_authorId kd.2 = authorId))
           (map_to_list (articleSummaries w))).

(** [getDocs(query(articleSummariesRef, orderBy(sortField, 'desc')))].  The
    order Firestore gives the documents is its own business. *)
Variable orderByDesc :
  string → list (string * ArticleSummary) → list (string * ArticleSummary).

Definition getSummariesOrderBy (sortField : string)
  : Async (list (string * ArticleSummary)) :=
  run firestore in
  reads (fun w => orderByDesc sortField (map_to_list (articleSummaries w))).

(** [getDoc(doc(searchDb, 'counts', 'article'))] and
    [getDoc(doc(searchDb, 'counts', 'author'))]. *)
Definition getCountsArticleDoc : Async (option (CountsDoc ArticleCounts)) :=
  run firestore in reads countsArticle.

Definition getCountsAuthorDoc : Async (option (CountsDoc AuthorCounts)) :=
  run firestore in reads countsAuthor.

(** [setDoc(countsRef, { counts, lastUpdated: Date.now() })]. *)
Definition setCountsArticleDoc (m : gmap string ArticleCounts) : Async unit :=
  run firestore in
  modify (fun w =>
    withCountsArticle (Some {| counts := m; countsLastUpdated := clock w |}) w).

Definition setCountsAuthorDoc (m : gmap string AuthorCounts) : Async unit :=
  run firestore in
  modify (fun w =>
    withCountsAuthor (Some {| counts := m; countsLastUpdated := clock w |}) w).

(** [{ merge: true }] on an entry of [counts/article]: the fields written
    win, a field left out keeps its stored value. *)
Definition mergeArticleCounts (new old : ArticleCounts) : ArticleCounts :=
  {| c_likeCount := c_likeCount new;
     c_usefulCount := c_usefulCount new;
     c_dislikeCount :=
       match c_dislikeCount new with
       | Some d => Some d
       | None => c_dislikeCount old
       end |}.

(** [setDoc(countsRef, { counts, lastUpdated: Date.now() }, { merge: true })]. *)
Definition mergeCountsArticleDoc (m : gmap string ArticleCounts) : Async unit :=
  run firestore in
  modify (fun w =>
    let stored := from_option counts ∅ (countsArticle w) in
    withCountsArticle
      (Some {| counts := union_with (fun n o => Some (mergeArticleCounts n o)) m stored;
               countsLastUpdated := clock w |}) w).

(** The same on [counts/author]; an entry is always written whole. *)
Definition mergeCountsAuthorDoc (m : gmap string AuthorCounts) : Async unit :=
  run firestore in
  modify (fun w =>
    let stored := from_option counts ∅ (countsAuthor w) in
    withCountsAuthor
      (Some {| counts := m ∪ stored; countsLastUpdated := clock w |}) w).

(** [increment(1)] on a counter field. *)
Definition increment1 (x : option Z) : option Z := Some (orZero x + 1).

(** [x || 0] on a score. *)
Definition scoreOr (x : option Score) : Score :=
  match x with
  | Some s => if score_falsy s then score_zero else s
  | None => score_zero
  end.

(** ** Reading an article *)

(** [{ id: docSnap.id, ...docSnap.data() }]: an [id] field of the document
    itself, if it has one, wins over the document id. *)
Definition withDocId (docId : string) (data : WikiArticle) : WikiArticle :=
  {| a_id := match a_id data with Some i => Some i | None => Some docId end;
     a_title := a_title data; a_description := a_description data;
     a_content := a_content data; a_tags := a_tags data;
     a_author := a_author data; a_authorId := a_authorId data;
     a_imageUrl := a_imageUrl data; a_imageId := a_imageId data;
     a_date := a_date data; a_lastUpdated := a_lastUpdated data;
     a_usefulCount := a_usefulCount data; a_likeCount := a_likeCount data;
     a_dislikeCount := a_dislikeCount data; a_deleteUrl := a_deleteUrl data;
     a_articleScore := a_articleScore data |}.

(** The four assignments [mainData.likeCount = summaryData.likeCount || 0] ... *)
Definition withRatings (s : ArticleSummary) (a : WikiArticle) : WikiArticle :=
  {| a_id := a_id a;
     a_title := a_title a; a_description := a_description a;
     a_content := a_content a; a_tags := a_tags a;
     a_author := a_author a; a_authorId := a_authorId a;
     a_imageUrl := a_imageUrl a; a_imageId := a_imageId a;
     a_date := a_date a; a_lastUpdated := a_lastUpdated a;
     a_usefulCount := Some (orZero (s_usefulCount s));
     a_likeCount := Some (orZero (s_likeCount s));
     a_dislikeCount := Some (orZero (s_dislikeCount s));
     a_deleteUrl := a_deleteUrl a;
     a_articleScore := Some (scoreOr (s_articleScore s)) |}.

Definition getArticleById (id : string) : Async (option WikiArticle) :=
  tryCatch
    (await docSnap := getArticleDoc id in
     match docSnap with
     | Some data =>
         let mainData := withDocId id data in
         await mainData' :=
           tryCatch
             (await summarySnap := getSummaryDoc id in
              match summarySnap with
              | Some summaryData => ret (withRatings summaryData mainData)
              | None => ret mainData
              end)
             (fun _ => run logLine WarnSummaryComplement in ret mainData) in
         ret (Some mainData')
     | None => ret None
     end)
    (fun error => run logLine ErrGetArticle in throw error).

(** [{ id: doc.id, ...doc.data() }] is the stored summary: it has its own
    [id] field, which the spread puts last. *)
Definition getAllArticleSummaries (sortField : string) : Async (list ArticleSummary) :=
  tryCatch
    (await docs := getSummariesOrderBy sortField in
     ret (map snd docs))
    (fun error => run logLine ErrGetSummaries in throw error).

(** The loop of [getAllArticles]: [articles.push(article)] when it is found. *)
Fixpoint loadArticles (articleIds : list string) : Async (list WikiArticle) :=
  match articleIds with
  | [] => ret []
  | id :: rest =>
      await article := getArticleById id in
      await articles := loadArticles rest in
      ret (match article with
           | Some a => a :: articles
           | None => articles
           end)
  end.

Definition getAllArticles (sortField : string) : Async (list WikiArticle) :=
  tryCatch
    (await summaries := getAllArticleSummaries sortField in
     let articleIds := map s_id summaries in
     loadArticles articleIds)
    (fun error => run logLine ErrGetAllArticles in throw error).

(** ** The author aggregate *)

(** The default entry [{ likeCount: 0, usefulCount: 0, articleScoreSum: 0,
    articleCount: 0 }]. *)
Definition noAuthorCounts : AuthorCounts :=
  {| ac_likeCount := 0; ac_usefulCount := 0;
     ac_articleScoreSum := score_zero; ac_articleCount := 0 |}.

Definition updateAuthorScoreOnArticleCreate (authorId : string) (articleScore : Score)
  : Async unit :=
  tryCatch
    (await authorCountsDoc := getCountsAuthorDoc in
     match authorCountsDoc with
     | Some authorData =>
         let authorCounts := counts authorData in
         let currentAuthorCount := default noAuthorCounts (authorCounts !! authorId) in
         mergeCountsAuthorDoc
           (<[authorId :=
                {| ac_likeCount := ac_likeCount currentAuthorCount;
                   ac_usefulCount := ac_usefulCount currentAuthorCount;
                   ac_articleScoreSum :=
                     score_add (ac_articleScoreSum currentAuthorCount) articleScore;
                   ac_articleCount := ac_articleCount currentAuthorCount + 1 |}]>
              authorCounts)
     | None =>
         setCountsAuthorDoc
           {[ authorId :=
                {| ac_likeCount := 0; ac_usefulCount := 0;
                   ac_articleScoreSum := articleScore; ac_articleCount := 1 |} ]}
     end)
    (fun error => run logLine ErrAuthorScore in throw error).

(** One turn of the [forEach] in [updateAuthorScore]; the accumulator holds
    [likeCount], [usefulCount], [scoreSum] and [articleCount]. *)
Definition addSummary (articleId : string) (newScore : Score)
    (acc : AuthorCounts) (doc : string * ArticleSummary) : AuthorCounts :=
  let data := doc.2 in
  {| ac_likeCount := ac_likeCount acc + orZero (s_likeCount data);
     ac_usefulCount := ac_usefulCount acc + orZero (s_usefulCount data);
     ac_articleScoreSum :=
       score_add (ac_articleScoreSum acc)
         (if bool_decide (doc.1 = articleId) then newScore
          else scoreOr (s_articleScore data));
     ac_articleCount := ac_articleCount acc + 1 |}.

Definition updateAuthorScore (authorId articleId : string) (newScore : Score)
  : Async unit :=
  tryCatch
    (await authorCountsDoc := getCountsAuthorDoc in
     await authorArticlesSnapshot := getSummariesByAuthor authorId in
     let totals :=
       foldl (addSummary articleId newScore) noAuthorCounts authorArticlesSnapshot in
     let authorCounts := from_option counts ∅ authorCountsDoc in
     mergeCountsAuthorDoc (<[authorId := totals]> authorCounts))
    (fun error => run logLine ErrAuthorScore in throw error).

(** ** The coordinator *)

(** [mainDbArticle] with the overrides of the [addDoc] call: the article
    without its four rating fields, [date: article.date || now],
    [lastUpdated: now]. *)
Definition mainDbArticle (article : WikiArticle) (now : TimeValue) : WikiArticle :=
  {| a_id := a_id article;
     a_title := a_title article; a_description := a_description article;
     a_content := a_content article; a_tags := a_tags article;
     a_author := a_author article; a_authorId := a_authorId article;
     a_imageUrl := a_imageUrl article; a_imageId := a_imageId article;
     a_date := dateOr (a_date article) now; a_lastUpdated := Some now;
     a_usefulCount := None; a_likeCount := None; a_dislikeCount := None;
     a_deleteUrl := a_deleteUrl article;
     a_articleScore := None |}.

(** The document [createArticle] writes to [articleSummaries]. *)
Definition newSummary (id : string) (article : WikiArticle) (now : TimeValue)
    (articleScore : Score) : ArticleSummary :=
  {| s_id := id;
     s_title := a_title article; s_description := a_description article;
     s_tags := a_tags article; s_author := a_author article;
     s_authorId := a_authorId article; s_imageUrl := a_imageUrl article;
     s_date := dateOr (a_date article) now; s_lastUpdated := Some now;
     s_usefulCount := Some (orZero (a_usefulCount article));
     s_likeCount := Some (orZero (a_likeCount article));
     s_dislikeCount := Some (orZero (a_dislikeCount article));
     s_articleScore := Some articleScore |}.

Definition createArticle (article : WikiArticle) : Async string :=
  tryCatch
    (await now := reads serverTimestamp in
     let articleScore :=
       calculateArticleScore (a_content article)
         (Some (orZero (a_likeCount article)))
         (Some (orZero (a_usefulCount article)))
         (Some (orZero (a_dislikeCount article))) in
     await id :=
       tryCatch
         (addArticleDoc (mainDbArticle article now))
         (fun mainDbError =>
            run logLine ErrMainDbSave in throw (MainDbWriteFailed mainDbError)) in
     run
       tryCatch
         (run setSummaryDoc id (newSummary id article now articleScore) in
          updateAuthorScoreOnArticleCreate (a_authorId article) articleScore)
         (fun searchDbError =>
            run logLine ErrSearchDbSave in
            run
              tryCatch
                (deleteArticleDoc id)
                (fun _ => logLine ErrMainDbCleanup) in
            throw (SearchDbWriteFailed searchDbError)) in
     ret id)
    (fun error => run logLine ErrCreateArticle in throw error).

(** [updateDoc(docRef, mainDbUpdateData)]: [{ ...updateData, lastUpdated: now }]
    without the four rating keys, laid over the stored document. *)
Definition applyMainDbUpdate (updateData : ArticleUpdate) (now : TimeValue)
    (a : WikiArticle) : WikiArticle :=
  {| a_id := match u_id updateData with Some i => Some i | None => a_id a end;
     a_title := default (a_title a) (u_title updateData);
     a_description := default (a_description a) (u_description updateData);
     a_content := default (a_content a) (u_content updateData);
     a_tags := default (a_tags a) (u_tags updateData);
     a_author := default (a_author a) (u_author updateData);
     a_authorId := default (a_authorId a) (u_authorId updateData);
     a_imageUrl :=
       match u_imageUrl updateData with Some i => Some i | None => a_imageUrl a end;
     a_imageId :=
       match u_imageId updateData with Some i => Some i | None => a_imageId a end;
     a_date := default (a_date a) (u_date updateData);
     a_lastUpdated := Some now;
     a_usefulCount := a_usefulCount a;
     a_likeCount := a_likeCount a;
     a_dislikeCount := a_dislikeCount a;
     a_deleteUrl :=
       match u_deleteUrl updateData with Some i => Some i | None => a_deleteUrl a end;
     a_articleScore := a_articleScore a |}.

(** [summaryUpdateData]: [lastUpdated], [articleScore], and the fields of
    [relevantFields] that are [in updateData]. *)
Record SummaryUpdate := {
  su_lastUpdated : TimeValue;
  su_articleScore : Score;
  su_title : option string;
  su_description : option string;
  su_tags : option (list string);
  su_author : option string;
  su_imageUrl : option string
}.

Definition summaryUpdateData (updateData : ArticleUpdate) (now : TimeValue)
    (articleScore : Score) : SummaryUpdate :=
  {| su_lastUpdated := now;
     su_articleScore := articleScore;
     su_title := u_title updateData;
     su_description := u_description updateData;
     su_tags := u_tags updateData;
     su_author := u_author updateData;
     su_imageUrl := u_imageUrl updateData |}.

Definition present {A} (x : option A) : nat :=
  match x with Some _ => 1%nat | None => 0%nat end.

(** [Object.keys(summaryUpdateData).length]. *)
Definition summaryUpdateKeys (d : SummaryUpdate) : nat :=
  (2 + present (su_title d) + present (su_description d) + present (su_tags d)
     + present (su_author d) + present (su_imageUrl d))%nat.

(** [updateDoc(summaryRef, summaryUpdateData)] on the stored summary. *)
Definition applySummaryUpdate (d : SummaryUpdate) (s : ArticleSummary) : ArticleSummary :=
  {| s_id := s_id s;
     s_title := default (s_title s) (su_title d);
     s_description := default (s_description s) (su_description d);
     s_tags := default (s_tags s) (su_tags d);
     s_author := default (s_author s) (su_author d);
     s_authorId := s_authorId s;
     s_imageUrl := match su_imageUrl d with Some i => Some i | None => s_imageUrl s end;
     s_date := s_date s;
     s_lastUpdated := Some (su_lastUpdated d);
     s_usefulCount := s_usefulCount s;
     s_likeCount := s_likeCount s;
     s_dislikeCount := s_dislikeCount s;
     s_articleScore := Some (su_articleScore d) |}.

Definition nonEmpty (s : string) : bool :=
  match s with EmptyString => false | _ => true end.

Definition updateArticle (id : string) (updateData : ArticleUpdate) : Async unit :=
  tryCatch
    (await now := reads serverTimestamp in
     await found := getArticleById id in
     match found with
     | None => throw ArticleNotFound
     | Some article =>
         await summarySnap := getSummaryDoc id in
         let currentLikes := orZero (summarySnap ≫= s_likeCount) in
         let currentUseful := orZero (summarySnap ≫= s_usefulCount) in
         let currentDislikes := orZero (summarySnap ≫= s_dislikeCount) in
         let updatedContent :=
           stringOr (default EmptyString (u_content updateData)) (a_content article) in
         let articleScore :=
           calculateArticleScore updatedContent
             (Some currentLikes) (Some currentUseful) (Some currentDislikes) in
         run updateArticleDoc id (applyMainDbUpdate updateData now) in
         let d := summaryUpdateData updateData now articleScore in
         run (if bool_decide (1 < summaryUpdateKeys d)%nat
              then updateSummaryDoc id (applySummaryUpdate d)
              else ret tt) in
         if nonEmpty (a_authorId article)
         then updateAuthorScore (a_authorId article) id articleScore
         else ret tt
     end)
    (fun error => run logLine ErrUpdateArticle in throw error).

Definition deleteArticle (id : string) : Async unit :=
  tryCatch
    (run deleteArticleDoc id in
     tryCatch
       (deleteSummaryDoc id)
       (fun _ => logLine ErrSearchDbDelete))
    (fun error => run logLine ErrDeleteArticle in throw error).

(** ** The rating engine *)

(** The result of [updateDoc(articleSummaryRef, { ...Count: increment(1),
    articleScore: newScore })] on the stored summary [s]: the rating fields
    as given, the others as stored. *)
Definition withRatingFields (s : ArticleSummary)
    (usefulCount likeCount dislikeCount : option Z) (articleScore : Score)
  : ArticleSummary :=
  {| s_id := s_id s; s_title := s_title s;
     s_description := s_description s; s_tags := s_tags s;
     s_author := s_author s; s_authorId := s_authorId s;
     s_imageUrl := s_imageUrl s; s_date := s_date s;
     s_lastUpdated := s_lastUpdated s;
     s_usefulCount := usefulCount;
     s_likeCount := likeCount;
     s_dislikeCount := dislikeCount;
     s_articleScore := Some articleScore |}.

(** The cache key [`article-counts:["${id}"]`]. *)
Definition articleCountsKey (id : string) : string :=
  let quote := String (Ascii.ascii_of_nat 34) EmptyString in
  "article-counts:[" +:+ quote +:+ id +:+ quote +:+ "]".

(** [cacheManager.updateArticleCount(...)] inside its own [try]. *)
Definition cacheUpdateArticleCount (id : string) (likeCount usefulCount : option Z)
    (score : Score) : Async unit :=
  fun w =>
    match updateArticleCount id likeCount usefulCount score (cache w) with
    | Some c => (Ok tt, withCache c w)
    | None => (Ok tt, withConsole (console w ++ [WarnCacheUpdate]) w)
    end.

(** [import('../utils/cacheManager').then(cache => cache.deleteCache(key))],
    run where it is issued. *)
Definition clearArticleCountsCache (id : string) : Async unit :=
  modify (fun w => withCache (deleteCache (articleCountsKey id) (cache w)) w).

(** [x ? x + 1 : 1] on a counter that may be missing. *)
Definition nextCount (x : option Z) : Z :=
  match x with
  | Some n => if n =? 0 then 1 else n + 1
  | None => 1
  end.

Definition incrementUsefulCount (id : string) : Async unit :=
  tryCatch
    (await found := getArticleById id in
     match found with
     | None => throw ArticleOrAuthorNotFound
     | Some article =>
         if negb (nonEmpty (a_authorId article)) then throw ArticleOrAuthorNotFound
         else
           let authorId := a_authorId article in
           let newUsefulCount := orZero (a_usefulCount article) + 1 in
           let newScore :=
             calculateArticleScore (a_content article)
               (a_likeCount article)
               (Some newUsefulCount)
               (Some (orZero (a_dislikeCount article))) in
           run updateSummaryDoc id (fun s =>
                 withRatingFields s (increment1 (s_usefulCount s)) (s_likeCount s)
                   (s_dislikeCount s) newScore) in
           run updateAuthorScore authorId id newScore in
           run cacheUpdateArticleCount id (a_likeCount article)
                 (Some newUsefulCount) newScore in
           await docs := promiseAll getCountsArticleDoc getCountsAuthorDoc in
           let countsDoc := docs.1 in
           let authorCountsDoc := docs.2 in
           run match countsDoc with
               | Some countsData =>
                   let currentCounts := counts countsData in
                   let articleCounts :=
                     default {| c_likeCount := 0; c_usefulCount := 0;
                                c_dislikeCount := None |} (currentCounts !! id) in
                   mergeCountsArticleDoc
                     (<[id := {| c_likeCount := c_likeCount articleCounts;
                                 c_usefulCount := c_usefulCount articleCounts + 1;
                                 c_dislikeCount := c_dislikeCount articleCounts |}]>
                        currentCounts)
               | None =>
                   await articleData := getArticleById id in
                   let newCount := nextCount (articleData ≫= a_usefulCount) in
                   let likeCount := orZero (articleData ≫= a_likeCount) in
                   setCountsArticleDoc
                     {[ id := {| c_likeCount := likeCount; c_usefulCount := newCount;
                                 c_dislikeCount := None |} ]}
               end in
           run match authorCountsDoc with
               | Some authorData =>
                   let authorCounts := counts authorData in
                   let currentAuthorCount :=
                     default noAuthorCounts (authorCounts !! authorId) in
                   await _articleSummary := getSummaryDoc id in
                   mergeCountsAuthorDoc
                     (<[authorId :=
                          {| ac_likeCount := ac_likeCount currentAuthorCount;
                             ac_usefulCount := ac_usefulCount currentAuthorCount + 1;
                             ac_articleScoreSum := ac_articleScoreSum currentAuthorCount;
                             ac_articleCount := ac_articleCount currentAuthorCount |}]>
                        authorCounts)
               | None =>
                   await articleSummary := getSummaryDoc id in
                   let articleScore :=
                     from_option (fun s => scoreOr (s_articleScore s)) score_zero
                       articleSummary in
                   setCountsAuthorDoc
                     {[ authorId :=
                          {| ac_likeCount := 0; ac_usefulCount := 1;
                             ac_articleScoreSum := articleScore;
                             ac_articleCount := 1 |} ]}
               end in
           clearArticleCountsCache id
     end)
    (fun error => run logLine ErrUsefulCount in throw error).

Definition incrementLikeCount (id : string) : Async unit :=
  tryCatch
    (await found := getArticleById id in
     match found with
     | None => throw ArticleOrAuthorNotFound
     | Some article =>
         if negb (nonEmpty (a_authorId article)) then throw ArticleOrAuthorNotFound
         else
           let authorId := a_authorId article in
           let newLikeCount := orZero (a_likeCount article) + 1 in
           let newScore :=
             calculateArticleScore (a_content article)
               (Some newLikeCount)
               (a_usefulCount article)
               (Some (orZero (a_dislikeCount article))) in
           run updateSummaryDoc id (fun s =>
                 withRatingFields s (s_usefulCount s) (increment1 (s_likeCount s))
                   (s_dislikeCount s) newScore) in
           run updateAuthorScore authorId id newScore in
           run cacheUpdateArticleCount id (Some newLikeCount)
                 (a_usefulCount article) newScore in
           await docs := promiseAll getCountsArticleDoc getCountsAuthorDoc in
           let countsDoc := docs.1 in
           let authorCountsDoc := docs.2 in
           run match countsDoc with
               | Some countsData =>
                   let currentCounts := counts countsData in
                   let articleCounts :=
                     default {| c_likeCount := 0; c_usefulCount := 0;
                                c_dislikeCount := None |} (currentCounts !! id) in
                   mergeCountsArticleDoc
                     (<[id := {| c_likeCount := c_likeCount articleCounts + 1;
                                 c_usefulCount := c_usefulCount articleCounts;
                                 c_dislikeCount := c_dislikeCount articleCounts |}]>
                        currentCounts)
               | None =>
                   await articleData := getArticleById id in
                   let newCount := nextCount (articleData ≫= a_likeCount) in
                   let usefulCount := orZero (articleData ≫= a_usefulCount) in
                   setCountsArticleDoc
                     {[ id := {| c_likeCount := newCount; c_usefulCount := usefulCount;
                                 c_dislikeCount := None |} ]}
               end in
           run match authorCountsDoc with
               | Some authorData =>
                   let authorCounts := counts authorData in
                   let currentAuthorCount :=
                     default noAuthorCounts (authorCounts !! authorId) in
                   await _articleSummary := getSummaryDoc id in
                   mergeCountsAuthorDoc
                     (<[authorId :=
                          {| ac_likeCount := ac_likeCount currentAuthorCount + 1;
                             ac_usefulCount := ac_usefulCount currentAuthorCount;
                             ac_articleScoreSum := ac_articleScoreSum currentAuthorCount;
                             ac_articleCount := ac_articleCount currentAuthorCount |}]>
                        authorCounts)
               | None =>
                   await articleSummary := getSummaryDoc id in
                   let articleScore :=
                     from_option (fun s => scoreOr (s_articleScore s)) score_zero
                       articleSummary in
                   setCountsAuthorDoc
                     {[ authorId :=
                          {| ac_likeCount := 1; ac_usefulCount := 0;
                             ac_articleScoreSum := articleScore;
                             ac_articleCount := 1 |} ]}
               end in
           clearArticleCountsCache id
     end)
    (fun error => run logLine ErrLikeCount in throw error).

Definition incrementDislikeCount (id : string) (isAdmin : bool) : Async unit :=
  tryCatch
    (if negb isAdmin then throw PermissionDenied
     else
       await found := getArticleById id in
       match found with
       | None => throw ArticleOrAuthorNotFound
       | Some article =>
           if negb (nonEmpty (a_authorId article)) then throw ArticleOrAuthorNotFound
           else
             let authorId := a_authorId article in
             let newDislikeCount := orZero (a_dislikeCount article) + 1 in
             let newScore :=
               calculateArticleScore (a_content article)
                 (a_likeCount article)
                 (a_usefulCount article)
                 (Some newDislikeCount) in
             run updateSummaryDoc id (fun s =>
                 withRatingFields s (s_usefulCount s) (s_likeCount s)
                   (increment1 (s_dislikeCount s)) newScore) in
             run updateAuthorScore authorId id newScore in
             await countsDoc := getCountsArticleDoc in
             run match countsDoc with
                 | Some countsData =>
                     let currentCounts := counts countsData in
                     let articleCounts :=
                       default {| c_likeCount := 0; c_usefulCount := 0;
                                  c_dislikeCount := Some 0 |} (currentCounts !! id) in
                     mergeCountsArticleDoc
                       (<[id := {| c_likeCount := c_likeCount articleCounts;
                                   c_usefulCount := c_usefulCount articleCounts;
                                   c_dislikeCount :=
                                     Some (orZero (c_dislikeCount articleCounts) + 1) |}]>
                          currentCounts)
                 | None =>
                     await articleData := getArticleById id in
                     let likeCount := orZero (articleData ≫= a_likeCount) in
                     let usefulCount := orZero (articleData ≫= a_usefulCount) in
                     setCountsArticleDoc
                       {[ id := {| c_likeCount := likeCount; c_usefulCount := usefulCount;
                                   c_dislikeCount := Some 1 |} ]}
                 end in
             clearArticleCountsCache id
       end)
    (fun error => run logLine ErrDislikeCount in throw error).

(** ** Reading ratings and aggregates *)

(** [{ usefulCount, likeCount }]. *)
Record Ratings := {
  r_usefulCount : Z;
  r_likeCount : Z
}.

Definition getArticleRatings (id : string) : Async Ratings :=
  tryCatch
    (await docSnap := getSummaryDoc id in
     match docSnap with
     | Some data =>
         ret {| r_usefulCount := orZero (s_usefulCount data);
                r_likeCount := orZero (s_likeCount data) |}
     | None => ret {| r_usefulCount := 0; r_likeCount := 0 |}
     end)
    (fun _ =>
       run logLine ErrArticleRatings in
       ret {| r_usefulCount := 0; r_likeCount := 0 |}).

(** [{ likeCount, usefulCount, dislikeCount }]. *)
Record Counts := {
  n_likeCount : Z;
  n_usefulCount : Z;
  n_dislikeCount : Z
}.

Definition _getArticleCountById (articleId : string) : Async Counts :=
  tryCatch
    (await summaryDoc := getSummaryDoc articleId in
     match summaryDoc with
     | Some data =>
         ret {| n_likeCount := orZero (s_likeCount data);
                n_usefulCount := orZero (s_usefulCount data);
                n_dislikeCount := orZero (s_dislikeCount data) |}
     | None =>
         run logLine WarnSummaryMissing in
         ret {| n_likeCount := 0; n_usefulCount := 0; n_dislikeCount := 0 |}
     end)
    (fun _ =>
       run logLine ErrArticleCount in
       ret {| n_likeCount := 0; n_usefulCount := 0; n_dislikeCount := 0 |}).

(** [articleCount > 0 ? articleScoreSum / articleCount : 0]. *)
Definition averageScore (authorData : AuthorCounts) : Score :=
  if 0 <? ac_articleCount authorData
  then score_div (ac_articleScoreSum authorData) (ac_articleCount authorData)
  else score_zero.

Definition getAuthorCountById (authorId : string) : Async AuthorCountsView :=
  tryCatch
    (await countsDoc := getCountsAuthorDoc in
     match countsDoc with
     | Some data =>
         let authorData := default noAuthorCounts (counts data !! authorId) in
         ret {| v_counts := authorData; v_averageScore := averageScore authorData |}
     | None =>
         ret {| v_counts := noAuthorCounts; v_averageScore := score_zero |}
     end)
    (fun _ =>
       run logLine ErrAuthorCount in
       ret {| v_counts := noAuthorCounts; v_averageScore := score_zero |}).

(** ** Vocabulary of the properties *)

(** The all-zero answers of the three read operations. *)
Definition noRatings : Ratings := {| r_usefulCount := 0; r_likeCount := 0 |}.
Definition noCounts : Counts :=
  {| n_likeCount := 0; n_usefulCount := 0; n_dislikeCount := 0 |}.
Definition noAuthorView : AuthorCountsView :=
  {| v_counts := noAuthorCounts; v_averageScore := score_zero |}.

(** The entry stored for an author, if there is one. *)
Definition storedAuthorCounts (w : World) (authorId : string) : option AuthorCounts :=
  countsAuthor w ≫= fun d => counts d !! authorId.

(** An article as [getArticleById] hands it out for the document [data]
    stored under [k]: with or without the ratings of a summary. *)
Definition readOf (k : string) (data : WikiArticle) (a : WikiArticle) : Prop :=
  a = withDocId k data ∨ ∃ s, a = withRatings s (withDocId k data).

(** The fields of an article that are no rating and that [createArticle]
    passes on as they come. *)
Definition sameFields (a b : WikiArticle) : Prop :=
  a_title a = a_title b ∧ a_description a = a_description b
  ∧ a_content a = a_content b ∧ a_tags a = a_tags b
  ∧ a_author a = a_author b ∧ a_authorId a = a_authorId b
  ∧ a_imageUrl a = a_imageUrl b ∧ a_imageId a = a_imageId b
  ∧ a_deleteUrl a = a_deleteUrl b.


(** The constraints the Firestore rules put on a written article: a title
    of at most 100 characters, a content of at most 10000, one to eight
    tags. *)
Definition validArticle (a : WikiArticle) : Prop :=
  Z.of_nat (String.length (a_title a)) ≤ 100
  ∧ Z.of_nat (String.length (a_content a)) ≤ 10000
  ∧ 0 < Z.of_nat (length (a_tags a)) ∧ Z.of_nat (length (a_tags a)) ≤ 8.

(** The summaries of an author, as the query of [updateAuthorScore] selects
    them. *)
Definition authorSummaries (summaries : gmap string ArticleSummary) (authorId : string)
  : list (string * ArticleSummary) :=
  filter (fun kd => bool_decide (s_authorId kd.2 = authorId)) (map_to_list summaries).

(** The aggregate of an author computed from scratch: the number of the
    summaries, the sums of their two counters, and the sum of their scores
    with [newScore] in the place of the score of [articleId]. *)
Definition sumZ (l : list Z) : Z := foldr Z.add 0 l.

Definition recountArticles (summaries : gmap string ArticleSummary) (authorId : string) : Z :=
  Z.of_nat (length (authorSummaries summaries authorId)).

Definition recountLikes (summaries : gmap string ArticleSummary) (authorId : string) : Z :=
  sumZ (map (fun kd => orZero (s_likeCount kd.2)) (authorSummaries summaries authorId)).

Definition recountUseful (summaries : gmap string ArticleSummary) (authorId : string) : Z :=
  sumZ (map (fun kd => orZero (s_usefulCount kd.2)) (authorSummaries summaries authorId)).

Definition resumScores (summaries : gmap string ArticleSummary)
    (authorId articleId : string) (newScore : Score) : Score :=
  foldl (fun acc kd =>
           score_add acc
             (if bool_decide (kd.1 = articleId) then newScore
              else scoreOr (s_articleScore kd.2)))
        score_zero (authorSummaries summaries authorId).

(** The scan of [updateAuthorScore] over all the summaries of the author. *)
Definition scanAuthor (summaries : gmap string ArticleSummary)
    (authorId articleId : string) (newScore : Score) : AuthorCounts :=
  foldl (addSummary articleId newScore) noAuthorCounts (authorSummaries summaries authorId).

(** ** Further reads of the search database *)

(** [getDocs(query(articleSummariesRef, where('tags', 'array-contains', tag)))]. *)
Definition getSummariesByTag (tag : string) : Async (list (string * ArticleSummary)) :=
  run firestore in
  reads (fun w =>
    filter (fun kd => bool_decide (tag ∈ s_tags kd.2))
           (map_to_list (articleSummaries w))).

(** [getDocs(query(articleSummariesRef, where('authorId', '==', authorId),
    orderBy('date', 'desc')))]. *)
Definition getSummariesByAuthorOrderBy (authorId sortField : string)
  : Async (list (string * ArticleSummary)) :=
  run firestore in
  reads (fun w =>
    orderByDesc sortField
      (filter (fun kd => bool_decide (s_authorId kd.2 = authorId))
              (map_to_list (articleSummaries w)))).

(** The id [addDoc] gives a new document of any collection. *)
Definition newDocId : Async string :=
  fun w => (Ok (autoId w (allocated w)), withAllocated (S (allocated w)) w).

(** [tags.every(tag => article.tags.includes(tag))]. *)
Definition hasEveryTag (tags : list string) (article : ArticleSummary) : bool :=
  forallb (fun tag => bool_decide (tag ∈ s_tags article)) tags.

(** ** Further vocabulary *)

(** What [getArticleById] answers for [id] when every read is answered. *)
Definition storedArticle (w : World) (id : string) : option WikiArticle :=
  match wikiArticles w !! id with
  | Some data =>
      Some (match articleSummaries w !! id with
            | Some s => withRatings s (withDocId id data)
            | None => withDocId id data
            end)
  | None => None
  end.

(** The same call made [n] times, one after the other. *)
Fixpoint repeatAsync (n : nat) (m : Async unit) : Async unit :=
  match n with
  | O => ret tt
  | S n' => run m in repeatAsync n' m
  end.

(** The call failed, and the two databases, the two aggregate documents and
    the cache are as they were. *)
Definition failsUntouched (m : Async unit) (w : World) (e : Error) : Prop :=
  ∃ w', m w = (Throw e, w')
    ∧ wikiArticles w' = wikiArticles w
    ∧ articleSummaries w' = articleSummaries w
    ∧ countsArticle w' = countsArticle w
    ∧ countsAuthor w' = countsAuthor w
    ∧ cache w' = cache w.

(** The fields of a summary that are no rating. *)
Definition sameSummaryFields (s' s : ArticleSummary) : Prop :=
  s_id s' = s_id s ∧ s_title s' = s_title s
  ∧ s_description s' = s_description s ∧ s_tags s' = s_tags s
  ∧ s_author s' = s_author s ∧ s_authorId s' = s_authorId s
  ∧ s_imageUrl s' = s_imageUrl s ∧ s_date s' = s_date s
  ∧ s_lastUpdated s' = s_lastUpdated s.

(** From [w] to [w'] the main database is as it was and one summary was
    rewritten, the one of [id], which was [s]: it has the three counters and
    the score given and the other fields of [s]. *)
Definition ratedAs (w w' : World) (id : string) (s : ArticleSummary)
    (usefulCount likeCount dislikeCount : option Z) (articleScore : Score) : Prop :=
  wikiArticles w' = wikiArticles w
  ∧ (∃ s', articleSummaries w' !! id = Some s'
       ∧ sameSummaryFields s' s
       ∧ s_usefulCount s' = usefulCount
       ∧ s_likeCount s' = likeCount
       ∧ s_dislikeCount s' = dislikeCount
       ∧ s_articleScore s' = Some articleScore)
  ∧ ∀ other, other ≠ id → articleSummaries w' !! other = articleSummaries w !! other.

End Wiki.

(** ** The other collections: tags, comments, replies and user names

    The functions of [wiki.ts] and of the user module that the above leaves
    out.  They log lines of their own and keep documents of their own, so
    they run on a [Site]: the [World] and, beside it, the collection [tags]
    of the search database, the sub-collections [comments] and [replies] and
    the collection [users] of the main database, and its two documents
    [info/users] and [info/admins]. *)

(** A document of [tags]: [{ count, lastUsed }]. *)
Record TagDoc := {
  t_count : Z;
  t_lastUsed : option TimeValue
}.

(** [interface Tag]: [{ name: doc.id, ...doc.data() }]. *)
Record Tag := {
  tag_name : string;
  tag_count : Z;
  tag_lastUsed : option TimeValue
}.

(** [interface WikiComment], and [WikiReply] with its [parentId]; also the
    shape of the documents of [comments] and [replies]. *)
Record WikiComment := {
  cm_id : option string;
  cm_content : string;
  cm_author : option string;
  cm_authorId : option string;
  cm_date : TimeValue;
  cm_replyCount : option Z;
  cm_likeCount : option Z;
  cm_parentId : option string
}.

(** A document of [users]. *)
Record UserDoc := {
  ud_displayName : string;
  ud_username : option string;
  ud_email : option string;
  ud_photoURL : option string;
  ud_bio : option string;
  ud_joinedAt : string;
  ud_lastLoginAt : string;
  ud_profileImage : option string;
  ud_selectedBadge : option string
}.


Inductive SiteError :=
| StoreError (e : Error)   (* an error of the calls above *)
| UsernameInUse.           (* Error('Username already in use'), code 'username/already-in-use' *)

Inductive SiteLog :=
| ErrArticlesByTags     (* console.error('タグによる記事取得エラー:') *)
| ErrUserSummaries      (* console.error('ユーザー記事概要取得エラー:') *)
| ErrUserArticles       (* console.error('ユーザー記事取得エラー:') *)
| ErrAllArticleCounts   (* console.error('カウント情報の取得に失敗:') *)
| ErrAllAuthorCounts    (* console.error('著者カウント情報の取得に失敗:') *)
| ErrGetTags            (* console.error('タグ取得エラー:') *)
| ErrTagUpdate          (* console.error('タグ更新エラー:') *)
| ErrAddComment         (* console.error('コメント追加エラー:') *)
| ErrAddReply           (* console.error('返信追加エラー:') *)
| ErrCommentLike        (* console.error('コメントいいね更新エラー:') *)
| ErrReplyLike          (* console.error('返信いいね更新エラー:') *)
| ErrUserProfileUpdate  (* console.error('ユーザープロフィール更新エラー:') *)
| ErrUsernameUpdate     (* console.error('ユーザー名更新エラー:') *)
| ErrAdminCheck.        (* console.error('管理者確認エラー:') *)

Inductive Outcome (A : Type) :=
| Done (a : A)
| Fail (e : SiteError).
Arguments Done {A} a.
Arguments Fail {A} e.



(** [array.includes(x)]. *)
Definition includes (x : string) (l : list string) : bool := bool_decide (x ∈ l).

(** [arrayUnion(x)] and [arrayRemove(x)] on a stored array. *)
Definition arrayUnion (x : string) (l : list string) : list string :=
  if includes x l then l else l ++ [x].

Definition arrayRemove (x : string) (l : list string) : list string :=
  filter (fun y => y ≠ x) l.

(** How often [t] is named in [l]. *)
Definition named (t : string) (l : list string) : Z :=
  Z.of_nat (length (filter (fun x => x = t) l)).

Section Site.
Context `{CM : CacheManager}.

Variable orderByDesc :
  string → list (string * ArticleSummary) → list (string * ArticleSummary).

(** [getDocs(query(tagsRef, orderBy('count', 'desc')))]. *)
Variable orderTagsDesc : list (string * TagDoc) → list (string * TagDoc).

(** [new Date().toISOString()] at a given time. *)
Variable toISOString : Z → string.

Record Site := {
  core : World;
  tags : gmap string TagDoc;                       (* searchDb, 'tags' *)
  comments : gmap (string * string) WikiComment;   (* db, 'wikiArticles/{a}/comments' *)
  replies : gmap (string * string * string) WikiComment;
                                      (* db, 'wikiArticles/{a}/comments/{c}/replies' *)
  users : gmap string UserDoc;                     (* db, 'users' *)
  userNames : option (list string);                (* db, 'info/users': usernames *)
  adminEmails : option (list string);              (* db, 'info/admins': emails *)
  siteConsole : list SiteLog
}.

Definition withCore (w : World) (s : Site) : Site :=
  {| core := w; tags := tags s; comments := comments s; replies := replies s;
     users := users s; userNames := userNames s; adminEmails := adminEmails s;
     siteConsole := siteConsole s |}.

Definition withTags (m : gmap string TagDoc) (s : Site) : Site :=
  {| core := core s; tags := m; comments := comments s; replies := replies s;
     users := users s; userNames := userNames s; adminEmails := adminEmails s;
     siteConsole := siteConsole s |}.

Definition withComments (m : gmap (string * string) WikiComment) (s : Site) : Site :=
  {| core := core s; tags := tags s; comments := m; replies := replies s;
     users := users s; userNames := userNames s; adminEmails := adminEmails s;
     siteConsole := siteConsole s |}.

Definition withReplies (m : gmap (string * string * string) WikiComment) (s : Site)
  : Site :=
  {| core := core s; tags := tags s; comments := comments s; replies := m;
     users := users s; userNames := userNames s; adminEmails := adminEmails s;
     siteConsole := siteConsole s |}.

Definition withUsers (m : gmap string UserDoc) (s : Site) : Site :=
  {| core := core s; tags := tags s; comments := comments s; replies := replies s;
     users := m; userNames := userNames s; adminEmails := adminEmails s;
     siteConsole := siteConsole s |}.

Definition withUserNames (l : option (list string)) (s : Site) : Site :=
  {| core := core s; tags := tags s; comments := comments s; replies := replies s;
     users := users s; userNames := l; adminEmails := adminEmails s;
     siteConsole := siteConsole s |}.

Definition withSiteConsole (l : list SiteLog) (s : Site) : Site :=
  {| core := core s; tags := tags s; comments := comments s; replies := replies s;
     users := users s; userNames := userNames s; adminEmails := adminEmails s;
     siteConsole := l |}.

(** *** Computations on a site *)

Definition Task (A : Type) : Type := Site → Outcome A * Site.

Definition done {A} (a : A) : Task A := fun s => (Done a, s).

Definition fail {A} (e : SiteError) : Task A := fun s => (Fail e, s).

Definition andThen {A B} (m : Task A) (k : A → Task B) : Task B :=
  fun s =>
    match m s with
    | (Done a, s') => k a s'
    | (Fail e, s') => (Fail e, s')
    end.

Definition attempt {A} (m : Task A) (h : SiteError → Task A) : Task A :=
  fun s =>
    match m s with
    | (Done a, s') => (Done a, s')
    | (Fail e, s') => h e s'
    end.

Definition note (l : SiteLog) : Task unit :=
  fun s => (Done tt, withSiteConsole (siteConsole s ++ [l]) s).

Definition look {A} (f : Site → A) : Task A := fun s => (Done (f s), s).

Definition change (f : Site → Site) : Task unit := fun s => (Done tt, f s).

(** A computation of the first part, run on the world of the site. *)
Definition onCore {A} (m : Async A) : Task A :=
  fun s =>
    match m (core s) with
    | (Ok a, w) => (Done a, withCore w s)
    | (Throw e, w) => (Fail (StoreError e), withCore w s)
    end.

(** [Promise.all(promises)] over calls that were all issued, in the order
    of the list: every one runs, the first rejection is the result. *)
Fixpoint promiseAllOf (ms : list (Task unit)) : Task unit :=
  match ms with
  | [] => done tt
  | m :: rest =>
      fun s =>
        let (r1, s1) := m s in
        let (r2, s2) := promiseAllOf rest s1 in
        (match r1 with
         | Fail e => Fail e
         | Done _ => r2
         end, s2)
  end.

Notation "'await' x ':=' m 'in' k" := (andThen m (fun x => k))
  (at level 10, x name, m at level 100, k at level 200).
Notation "'run' m 'in' k" := (andThen m (fun _ => k))
  (at level 10, m at level 100, k at level 200).

(** One round trip to Firestore. *)
Definition roundTrip : Task unit := onCore firestore.

(** *** Summaries by tag and by author; the aggregate maps *)

(** An empty [tags] returns the promise of [getAllArticleSummaries()] as it
    is: its rejection does not pass through the [catch] of this function. *)
Definition getArticlesByTags (tagNames : list string) : Task (list ArticleSummary) :=
  match tagNames with
  | [] => onCore (getAllArticleSummaries orderByDesc "usefulCount")
  | tag0 :: _ =>
      attempt
        (await docs := onCore (getSummariesByTag tag0) in
         let articles := map snd docs in
         if bool_decide (1 < length tagNames)%nat
         then done (filter (fun article => hasEveryTag tagNames article) articles)
         else done articles)
        (fun error => run note ErrArticlesByTags in fail error)
  end.

(** The [catch] answers [[]]; its hint about a missing index is for an error
    text that none of the errors here carries. *)
Definition getUserArticleSummaries (authorId : string) : Task (list ArticleSummary) :=
  attempt
    (await docs := onCore (getSummariesByAuthorOrderBy orderByDesc authorId "date") in
     done (map snd docs))
    (fun _ => run note ErrUserSummaries in done []).



Definition getArticleCounts : Task (gmap string ArticleCounts) :=
  attempt
    (await countsDoc := onCore getCountsArticleDoc in
     done (from_option counts ∅ countsDoc))
    (fun _ => run note ErrAllArticleCounts in done ∅).

Definition getAuthorCounts : Task (gmap string AuthorCounts) :=
  attempt
    (await countsDoc := onCore getCountsAuthorDoc in
     done (from_option counts ∅ countsDoc))
    (fun _ => run note ErrAllAuthorCounts in done ∅).

(** *** Tags *)

Definition getAllTags : Task (list Tag) :=
  attempt
    (run roundTrip in
     await docs := look (fun s => orderTagsDesc (map_to_list (tags s))) in
     done (map (fun kd => {| tag_name := kd.1; tag_count := t_count kd.2;
                             tag_lastUsed := t_lastUsed kd.2 |}) docs))
    (fun _ => run note ErrGetTags in done []).

(** [setDoc(tagRef, { count: increment(1), lastUsed: now }, { merge: true })]. *)
Definition countTag (now : TimeValue) (tagName : string) : Task unit :=
  run roundTrip in
  change (fun s =>
    withTags (<[tagName := {| t_count := from_option t_count 0 (tags s !! tagName) + 1;
                              t_lastUsed := Some now |}]> (tags s)) s).

Definition updateTags (tagNames : list string) : Task unit :=
  attempt
    (await now := look (fun s => serverTimestamp (core s)) in
     promiseAllOf (map (countTag now) tagNames))
    (fun error => run note ErrTagUpdate in fail error).

(** [updateDoc(tagRef, { count: increment(-1) })]. *)
Definition uncountTag (tagName : string) : Task unit :=
  run roundTrip in
  fun s =>
    match tags s !! tagName with
    | Some t =>
        (Done tt,
         withTags (<[tagName := {| t_count := t_count t + -1;
                                   t_lastUsed := t_lastUsed t |}]> (tags s)) s)
    | None => (Fail (StoreError DocNotFound), s)
    end.

Definition decrementTags (tagNames : list string) : Task unit :=
  attempt
    (promiseAllOf (map uncountTag tagNames))
    (fun error => run note ErrTagUpdate in fail error).

(** *** Comments and replies *)

(** [{ ...comment, date: serverTimestamp(), replyCount: 0, likeCount: 0 }]. *)
Definition newComment (comment : WikiComment) (now : TimeValue) : WikiComment :=
  {| cm_id := cm_id comment; cm_content := cm_content comment;
     cm_author := cm_author comment; cm_authorId := cm_authorId comment;
     cm_date := now; cm_replyCount := Some 0; cm_likeCount := Some 0;
     cm_parentId := cm_parentId comment |}.

(** [{ ...reply, date: serverTimestamp(), likeCount: 0 }]. *)
Definition newReply (reply : WikiComment) (now : TimeValue) : WikiComment :=
  {| cm_id := cm_id reply; cm_content := cm_content reply;
     cm_author := cm_author reply; cm_authorId := cm_authorId reply;
     cm_date := now; cm_replyCount := cm_replyCount reply; cm_likeCount := Some 0;
     cm_parentId := cm_parentId reply |}.

(** [updateDoc(commentRef, fields)]. *)
Definition updateCommentDoc (articleId commentId : string)
    (f : WikiComment → WikiComment) : Task unit :=
  run roundTrip in
  fun s =>
    match comments s !! (articleId, commentId) with
    | Some c =>
        (Done tt, withComments (<[(articleId, commentId) := f c]> (comments s)) s)
    | None => (Fail (StoreError DocNotFound), s)
    end.

(** [updateDoc(replyRef, fields)]. *)
Definition updateReplyDoc (articleId commentId replyId : string)
    (f : WikiComment → WikiComment) : Task unit :=
  run roundTrip in
  fun s =>
    match replies s !! (articleId, commentId, replyId) with
    | Some c =>
        (Done tt,
         withReplies (<[(articleId, commentId, replyId) := f c]> (replies s)) s)
    | None => (Fail (StoreError DocNotFound), s)
    end.

Definition likeMore (c : WikiComment) : WikiComment :=
  {| cm_id := cm_id c; cm_content := cm_content c; cm_author := cm_author c;
     cm_authorId := cm_authorId c; cm_date := cm_date c;
     cm_replyCount := cm_replyCount c; cm_likeCount := increment1 (cm_likeCount c);
     cm_parentId := cm_parentId c |}.

Definition replyMore (c : WikiComment) : WikiComment :=
  {| cm_id := cm_id c; cm_content := cm_content c; cm_author := cm_author c;
     cm_authorId := cm_authorId c; cm_date := cm_date c;
     cm_replyCount := increment1 (cm_replyCount c); cm_likeCount := cm_likeCount c;
     cm_parentId := cm_parentId c |}.

Definition addComment (articleId : string) (comment : WikiComment) : Task string :=
  attempt
    (await now := look (fun s => serverTimestamp (core s)) in
     run roundTrip in
     await id := onCore newDocId in
     run change (fun s =>
           withComments (<[(articleId, id) := newComment comment now]> (comments s)) s) in
     done id)
    (fun error => run note ErrAddComment in fail error).

Definition addReply (articleId commentId : string) (reply : WikiComment) : Task string :=
  attempt
    (await now := look (fun s => serverTimestamp (core s)) in
     run roundTrip in
     await id := onCore newDocId in
     run change (fun s =>
           withReplies (<[(articleId, commentId, id) := newReply reply now]> (replies s))
             s) in
     run updateCommentDoc articleId commentId replyMore in
     done id)
    (fun error => run note ErrAddReply in fail error).

Definition incrementCommentLikeCount (articleId commentId : string) : Task unit :=
  attempt
    (updateCommentDoc articleId commentId likeMore)
    (fun error => run note ErrCommentLike in fail error).

Definition incrementReplyLikeCount (articleId commentId replyId : string) : Task unit :=
  attempt
    (updateReplyDoc articleId commentId replyId likeMore)
    (fun error => run note ErrReplyLike in fail error).

(** *** User names *)

(** It has no [try]; where [info/users] is missing it writes it, empty. *)
Definition isUsernameTaken (username : string) : Task bool :=
  run roundTrip in
  await docSnap := look userNames in
  match docSnap with
  | None =>
      run roundTrip in
      run change (withUserNames (Some [])) in
      done false
  | Some usernames => done (includes username usernames)
  end.

(** [updateDoc(usersDoc, { usernames: arrayUnion(username) })]. *)
Definition registerUsername (username : string) : Task unit :=
  run roundTrip in
  fun s =>
    match userNames s with
    | Some l => (Done tt, withUserNames (Some (arrayUnion username l)) s)
    | None => (Fail (StoreError DocNotFound), s)
    end.

(** [updateDoc(usersDoc, { usernames: arrayRemove(username) })]. *)
Definition removeUsername (username : string) : Task unit :=
  run roundTrip in
  fun s =>
    match userNames s with
    | Some l => (Done tt, withUserNames (Some (arrayRemove username l)) s)
    | None => (Fail (StoreError DocNotFound), s)
    end.

(** [updateDoc(userRef, fields)]. *)
Definition updateUserDoc (uid : string) (f : UserDoc → UserDoc) : Task unit :=
  run roundTrip in
  fun s =>
    match users s !! uid with
    | Some d => (Done tt, withUsers (<[uid := f d]> (users s)) s)
    | None => (Fail (StoreError DocNotFound), s)
    end.

Definition renamed (newUsername : string) (d : UserDoc) : UserDoc :=
  {| ud_displayName := newUsername; ud_username := Some newUsername;
     ud_email := ud_email d; ud_photoURL := ud_photoURL d; ud_bio := ud_bio d;
     ud_joinedAt := ud_joinedAt d; ud_lastLoginAt := ud_lastLoginAt d;
     ud_profileImage := ud_profileImage d; ud_selectedBadge := ud_selectedBadge d |}.

Definition updateUsername (uid oldUsername newUsername : string) : Task unit :=
  attempt
    (await taken := isUsernameTaken newUsername in
     if (taken : bool) then fail UsernameInUse
     else
       run updateUserDoc uid (renamed newUsername) in
       run removeUsername oldUsername in
       registerUsername newUsername)
    (fun error => run note ErrUsernameUpdate in fail error).




Definition isAdminEmail (email : string) : Task bool :=
  attempt
    (run roundTrip in
     await adminDoc := look adminEmails in
     match adminDoc with
     | Some adminList => done (includes email adminList)
     | None => done false
     end)
    (fun _ => run note ErrAdminCheck in done false).

End Site.

(** ** A score function and a cache to run the model on *)

(** Scores in [Z]: the length of the content, two points a like, three a
    "useful", one off for a dislike. *)
Definition demoScore : ScoreFunction :=
  {| Score := Z; score_zero := 0; score_add := Z.add; score_div := Z.div;
     score_falsy := Z.eqb 0;
     calculateArticleScore := fun content likeCount usefulCount dislikeCount =>
       Z.of_nat (String.length content) + 2 * orZero likeCount
       + 3 * orZero usefulCount - orZero dislikeCount |}.

(** A cache that holds the keys it was told about. *)
Definition demoCache : @CacheManager demoScore :=
  {| Cache := list string;
     updateArticleCount := fun id _ _ _ c => Some c;
     deleteCache := fun key c => filter (fun k => negb (String.eqb k key)) c |}.

#[local] Existing Instance demoScore.
#[local] Existing Instance demoCache.

Definition demoArticle : WikiArticle :=
  {| a_id := None; a_title := "t"; a_description := "d"; a_content := "hello";
     a_tags := ["x"]; a_author := "A"; a_authorId := "u1"; a_imageUrl := None;
     a_imageId := None; a_date := TimeString "2025-01-01"; a_lastUpdated := None;
     a_usefulCount := Some 0; a_likeCount := Some 0; a_dislikeCount := None;
     a_deleteUrl := None; a_articleScore := None |}.

(** Both databases empty; [rejections] is the fate of the calls to come. *)
Definition emptyWorld (rejections : list bool) : World :=
  {| wikiArticles := ∅; articleSummaries := ∅;
     countsArticle := None; countsAuthor := None;
     cache := []; clock := 7;
     autoId := fun n => match n with O => "a0" | _ => "a1" end;
     allocated := 0%nat; faults := rejections; console := [] |}.

(** The world after [demoArticle] was created in the empty one. *)
Definition oneArticleWorld (rejections : list bool) : World :=
  withFaults rejections (createArticle demoArticle (emptyWorld [])).2.

(** An article with its picture, handed in with five likes. *)
Definition likedArticle : WikiArticle :=
  {| a_id := None; a_title := "t"; a_description := "d"; a_content := "hello";
     a_tags := ["x"]; a_author := "A"; a_authorId := "u1";
     a_imageUrl := Some "https://img.example/1.png";
     a_imageId := Some "img1"; a_date := TimeString "2025-01-01";
     a_lastUpdated := None;
     a_usefulCount := Some 0; a_likeCount := Some 5; a_dislikeCount := None;
     a_deleteUrl := None; a_articleScore := None |}.

(** The world after [likedArticle] was created in the empty one. *)
Definition likedArticleWorld : World :=
  (createArticle likedArticle (emptyWorld [])).2.

(** The world [createArticle] leaves when the write of the summary and the
    compensating delete both reject: [likedArticle] is in the main database
    under "a0" and has no summary.  No call to come rejects. *)
Definition strandedArticleWorld : World :=
  withFaults [] (createArticle likedArticle (emptyWorld [false; true; true])).2.

(** The partial update [{ content }]. *)
Definition contentUpdate (content : string) : ArticleUpdate :=
  {| u_id := None; u_title := None; u_description := None;
     u_content := Some content; u_tags := None; u_author := None;
     u_authorId := None; u_imageUrl := None; u_imageId := None; u_date := None;
     u_lastUpdated := None; u_usefulCount := None; u_likeCount := None;
     u_dislikeCount := None; u_deleteUrl := None; u_articleScore := None |}.

(** The article of [oneArticleWorld] without its summary. *)
Definition orphanArticleWorld : World :=
  withSummaries ∅ (oneArticleWorld []).

Definition demoComment : WikiComment :=
  {| cm_id := None; cm_content := "first"; cm_author := Some "A";
     cm_authorId := Some "u1"; cm_date := Timestamp 5; cm_replyCount := Some 0;
     cm_likeCount := Some 4; cm_parentId := None |}.

Definition demoUser : UserDoc :=
  {| ud_displayName := "A"; ud_username := Some "A"; ud_email := None;
     ud_photoURL := None; ud_bio := None; ud_joinedAt := "2025-01-01";
     ud_lastLoginAt := "2025-01-01"; ud_profileImage := None;
     ud_selectedBadge := None |}.


(** [oneArticleWorld] with a tag, a comment, a user and her registered name. *)
Definition demoSite (rejections : list bool) : Site :=
  {| core := oneArticleWorld rejections;
     tags := {[ "x" := {| t_count := 1; t_lastUsed := None |} ]};
     comments := {[ ("a0", "c0") := demoComment ]};
     replies := ∅;
     users := {[ "u1" := demoUser ]};
     userNames := Some ["A"];
     adminEmails := Some ["root@example.com"];
     siteConsole := [] |}.

(** The order in which the map lists the documents, for [orderBy]. *)
Definition asListed {A} (sortField : string) (docs : list A) : list A := docs.


(** An article by "u1" with its picture, handed in with [useful] marks. *)
Definition shelved (title : string) (tagNames : list string) (useful : Z) : WikiArticle :=
  {| a_id := None; a_title := title; a_description := "d"; a_content := "hello";
     a_tags := tagNames; a_author := "A"; a_authorId := "u1";
     a_imageUrl := Some "https://img.example/1.png";
     a_imageId := Some "img1"; a_date := TimeString "2025-01-01";
     a_lastUpdated := None;
     a_usefulCount := Some useful; a_likeCount := Some 0; a_dislikeCount := Some 0;
     a_deleteUrl := None; a_articleScore := None |}.

(** Both databases empty, ids "p", "q" and "r" to come, no rejection. *)
Definition emptyShelf : World :=
  {| wikiArticles := ∅; articleSummaries := ∅;
     countsArticle := None; countsAuthor := None;
     cache := []; clock := 7;
     autoId := fun n => match n with O => "p" | 1%nat => "q" | _ => "r" end;
     allocated := 0%nat; faults := []; console := [] |}.

(** Three articles created, the third deleted in a run in which the delete
    of its summary rejected: "p" and "q" are in both databases, "r" has a
    summary only. *)
Definition shelfWorld : World :=
  let w1 := (createArticle (shelved "P" ["x"; "y"] 7) emptyShelf).2 in
  let w2 := (createArticle (shelved "Q" ["x"] 1) w1).2 in
  let w3 := (createArticle (shelved "R" ["y"] 3) w2).2 in
  withFaults [] (deleteArticle "r" (withFaults [false; true] w3)).2.

(** [orderBy(field, desc)] for the field [usefulCount]. *)
Fixpoint insertByUseful (x : string * ArticleSummary)
    (docs : list (string * ArticleSummary)) : list (string * ArticleSummary) :=
  match docs with
  | [] => [x]
  | y :: rest =>
      if Z.leb (orZero (s_usefulCount y.2)) (orZero (s_usefulCount x.2))
      then x :: y :: rest
      else y :: insertByUseful x rest
  end.

Definition byUsefulDesc (sortField : string) (docs : list (string * ArticleSummary))
  : list (string * ArticleSummary) :=
  foldr insertByUseful [] docs.

(** [demoSite] over these worlds. *)
Definition shelfSite (rejections : list bool) : Site :=
  withCore (withFaults rejections shelfWorld) (demoSite []).


(** ** Properties *)

Section Properties.
Context `{CM : CacheManager}.

(** C5: [incrementDislikeCount] without the admin flag throws
    [PermissionDenied] and writes nothing: the two databases, both aggregate
    documents and the cache are as before, and no Firestore call was made. *)
Theorem incrementDislikeCount_not_admin (id : string) (w : World) :
  ∃ w', incrementDislikeCount id false w = (Throw PermissionDenied, w')
    ∧ wikiArticles w' = wikiArticles w
    ∧ articleSummaries w' = articleSummaries w
    ∧ countsArticle w' = countsArticle w
    ∧ countsAuthor w' = countsAuthor w
    ∧ cache w' = cache w
    ∧ faults w' = faults w.
Proof.
  exists (withConsole (console w ++ [ErrDislikeCount]) w).
  repeat split; reflexivity.
Qed.

(** C9: the average is no field of a stored entry; [getAuthorCountById]
    computes it from the entry it returns as [articleScoreSum / articleCount]
    when [articleCount > 0] and as 0 otherwise, so it is 0 when the count is 0
    and when the author has no entry; reading leaves [counts/author] as it
    was. *)
Theorem getAuthorCountById_averageScore (authorId : string) (w : World) :
  ∃ v w', getAuthorCountById authorId w = (Ok v, w')
    ∧ countsAuthor w' = countsAuthor w
    ∧ v_averageScore v =
        (if 0 <? ac_articleCount (v_counts v)
         then score_div (ac_articleScoreSum (v_counts v)) (ac_articleCount (v_counts v))
         else score_zero)
    ∧ (ac_articleCount (v_counts v) = 0 → v_averageScore v = score_zero)
    ∧ (storedAuthorCounts w authorId = None → v = noAuthorView)
    ∧ (∀ e, head (faults w) ≠ Some true →
            storedAuthorCounts w authorId = Some e → v_counts v = e).
Proof.
  unfold getAuthorCountById, getCountsAuthorDoc, storedAuthorCounts, tryCatch, bind,
    reads, firestore, logLine, ret.
  destruct (faults w) as [|[] fs]; cbn.
  2: { eexists _, _. split; [reflexivity|]. cbn.
       repeat split; done. }
  all: destruct (countsAuthor w) as [d|] eqn:Hdoc; cbn;
    [destruct (counts d !! authorId) as [e|]; cbn|];
    eexists _, _; (split; [reflexivity|]); cbn; unfold averageScore; cbn;
    repeat split; try done;
    try (by intros ->);
    try (by intros e' _ [= ->]).
Qed.

(** C10: [getArticleRatings], [_getArticleCountById] and
    [getAuthorCountById] always return: when the record is missing, and when
    the read rejects, the answer is the all-zero one, the very answer they
    give for a record whose counters are all zero. *)
Theorem rating_reads_never_throw (id : string) (w : World) :
  (∃ r w', getArticleRatings id w = (Ok r, w')
     ∧ (articleSummaries w !! id = None ∨ head (faults w) = Some true → r = noRatings)
     ∧ (∀ s, articleSummaries w !! id = Some s →
             orZero (s_usefulCount s) = 0 → orZero (s_likeCount s) = 0 →
             r = noRatings))
  ∧ (∃ c w', _getArticleCountById id w = (Ok c, w')
     ∧ (articleSummaries w !! id = None ∨ head (faults w) = Some true → c = noCounts)
     ∧ (∀ s, articleSummaries w !! id = Some s →
             orZero (s_likeCount s) = 0 → orZero (s_usefulCount s) = 0 →
             orZero (s_dislikeCount s) = 0 → c = noCounts))
  ∧ (∃ v w', getAuthorCountById id w = (Ok v, w')
     ∧ (storedAuthorCounts w id = None ∨ head (faults w) = Some true → v = noAuthorView)
     ∧ (storedAuthorCounts w id = Some noAuthorCounts → v = noAuthorView)).
Proof.
  unfold getArticleRatings, _getArticleCountById, getAuthorCountById, getSummaryDoc,
    getCountsAuthorDoc, storedAuthorCounts, tryCatch, bind, reads, firestore,
    logLine, ret.
  split; [|split].
  - destruct (faults w) as [|[] fs]; cbn;
      try destruct (articleSummaries w !! id) as [s|]; cbn;
      eexists _, _; (split; [reflexivity|]); split;
      try done; try (by intros [?|?]);
      intros s' [= <-] Hu Hl; unfold noRatings; by rewrite Hu, Hl.
  - destruct (faults w) as [|[] fs]; cbn;
      try destruct (articleSummaries w !! id) as [s|]; cbn;
      eexists _, _; (split; [reflexivity|]); split;
      try done; try (by intros [?|?]);
      intros s' [= <-] Hl Hu Hd; unfold noCounts; by rewrite Hl, Hu, Hd.
  - destruct (faults w) as [|[] fs]; cbn;
      try (destruct (countsAuthor w) as [d|] eqn:Hdoc; cbn;
           [destruct (counts d !! id) as [e|]; cbn|]);
      eexists _, _; (split; [reflexivity|]); split;
      try done; try (by intros [?|?]);
      intros [= ->]; unfold averageScore, noAuthorView; cbn; done.
Qed.

(** Unfolding the monad and the Firestore calls. *)
Ltac unfold_async :=
  unfold getArticleDoc, addArticleDoc, updateArticleDoc, deleteArticleDoc,
    getSummaryDoc, setSummaryDoc, updateSummaryDoc, deleteSummaryDoc,
    getSummariesByAuthor, getSummariesOrderBy, getCountsArticleDoc,
    getCountsAuthorDoc, setCountsArticleDoc, setCountsAuthorDoc,
    mergeCountsArticleDoc, mergeCountsAuthorDoc, promiseAll,
    tryCatch, bind, ret, throw, reads, modify, logLine, firestore; cbn.

(** C1 (as amended): when [addDoc] is accepted and the write of the summary
    rejects, [createArticle] throws and, if the compensating [deleteDoc] is
    accepted, the main database holds no document under the new id; if that
    [deleteDoc] rejects as well, the document stays and the failure is
    logged.  When [addDoc] itself rejects, no further Firestore call is made
    and both databases are as before. *)
Theorem createArticle_compensation (article : WikiArticle) (w : World) :
  let id := autoId w (allocated w) in
  (∀ fs, faults w = false :: true :: fs → head fs ≠ Some true →
     ∃ w', createArticle article w = (Throw (SearchDbWriteFailed Unavailable), w')
       ∧ wikiArticles w' !! id = None
       ∧ articleSummaries w' = articleSummaries w)
  ∧ (∀ fs, faults w = false :: true :: true :: fs →
     ∃ w', createArticle article w = (Throw (SearchDbWriteFailed Unavailable), w')
       ∧ wikiArticles w' !! id = Some (mainDbArticle article (serverTimestamp w))
       ∧ articleSummaries w' = articleSummaries w
       ∧ ErrMainDbCleanup ∈ console w')
  ∧ (∀ fs, faults w = true :: fs →
     ∃ w', createArticle article w = (Throw (MainDbWriteFailed Unavailable), w')
       ∧ faults w' = fs
       ∧ wikiArticles w' = wikiArticles w
       ∧ articleSummaries w' = articleSummaries w).
Proof.
  intros id. unfold createArticle. unfold_async. split; [|split].
  - intros fs Hf Hhead. rewrite Hf. cbn.
    destruct fs as [|[] fs]; [|done|]; cbn;
      (eexists; split; [reflexivity|]); cbn;
      by rewrite lookup_delete_eq.
  - intros fs Hf. rewrite Hf. cbn.
    eexists; split; [reflexivity|]. cbn.
    rewrite lookup_insert_eq. repeat split; try done.
    set_solver.
  - intros fs Hf. rewrite Hf. cbn.
    eexists; split; [reflexivity|]. done.
Qed.

(** C6: when the main database has no document under [id],
    [updateArticle] throws and writes nothing: both databases, both aggregate
    documents and the cache are as before.  The error is "not found" whenever
    the lookup itself was answered. *)
Theorem updateArticle_not_found (id : string) (updateData : ArticleUpdate) (w : World) :
  wikiArticles w !! id = None →
  ∃ e w', updateArticle id updateData w = (Throw e, w')
    ∧ wikiArticles w' = wikiArticles w
    ∧ articleSummaries w' = articleSummaries w
    ∧ countsArticle w' = countsArticle w
    ∧ countsAuthor w' = countsAuthor w
    ∧ cache w' = cache w
    ∧ (head (faults w) ≠ Some true → e = ArticleNotFound).
Proof.
  intros Hnone. unfold updateArticle, getArticleById. unfold_async. cbn.
  destruct (faults w) as [|[] fs]; cbn; rewrite ?Hnone; cbn;
    eexists _, _; (split; [reflexivity|]); cbn; repeat split; done.
Qed.

(** *** Listings *)

Variable orderByDesc :
  string → list (string * ArticleSummary) → list (string * ArticleSummary).

(** Reading changes neither database. *)
Lemma getArticleById_frame (id : string) (w : World) r w' :
  getArticleById id w = (r, w') →
  wikiArticles w' = wikiArticles w ∧ articleSummaries w' = articleSummaries w.
Proof.
  unfold getArticleById. unfold_async. cbn.
  destruct (faults w) as [|[] fs] eqn:Hf; cbn;
    destruct (wikiArticles w !! id); cbn; rewrite ?Hf; cbn;
    try destruct fs as [|[] fs]; cbn;
    try destruct (articleSummaries w !! id); cbn;
    intros [= <- <-]; done.
Qed.

(** What it returns was read from a stored document. *)
Lemma getArticleById_stored (id : string) (w : World) a w' :
  getArticleById id w = (Ok (Some a), w') →
  ∃ data, wikiArticles w !! id = Some data ∧ readOf id data a.
Proof.
  unfold getArticleById, readOf. unfold_async. cbn.
  destruct (faults w) as [|[] fs] eqn:Hf; cbn;
    destruct (wikiArticles w !! id) as [data|]; cbn; rewrite ?Hf; cbn;
    try destruct fs as [|[] fs]; cbn;
    try destruct (articleSummaries w !! id); cbn;
    intros [= <- <-]; eauto.
Qed.

(** With no rejection to come, it returns and leaves the world alone. *)
Lemma getArticleById_ok (id : string) (w : World) :
  faults w = [] →
  getArticleById id w =
    (Ok (match wikiArticles w !! id with
         | Some data =>
             Some (match articleSummaries w !! id with
                   | Some s => withRatings s (withDocId id data)
                   | None => withDocId id data
                   end)
         | None => None
         end), w).
Proof.
  intros Hf. unfold getArticleById. unfold_async. rewrite Hf. cbn.
  destruct (wikiArticles w !! id); cbn; [|done].
  rewrite Hf. by destruct (articleSummaries w !! id).
Qed.

Lemma loadArticles_stored (ids : list string) :
  ∀ (w : World) l w',
    loadArticles ids w = (Ok l, w') →
    wikiArticles w' = wikiArticles w
    ∧ ∀ a, a ∈ l → ∃ k data, k ∈ ids ∧ wikiArticles w !! k = Some data ∧ readOf k data a.
Proof.
  induction ids as [|id ids IH]; intros w l w'; cbn.
  - unfold ret. intros [= <- <-]. split; [done|]. intros a Ha. by apply elem_of_nil in Ha.
  - unfold bind at 1.
    destruct (getArticleById id w) as [[found|e] w1] eqn:Hget; [|done].
    unfold bind at 1.
    destruct (loadArticles ids w1) as [[rest|e] w2] eqn:Hrest; [|done].
    unfold ret. intros [= <- <-].
    destruct (getArticleById_frame _ _ _ _ Hget) as [Hw1 _].
    destruct (IH _ _ _ Hrest) as [Hw2 Hin].
    split; [congruence|].
    assert (∀ a, a ∈ rest →
              ∃ k data, k ∈ id :: ids ∧ wikiArticles w !! k = Some data ∧ readOf k data a)
      as Hrest'.
    { intros a Ha. destruct (Hin a Ha) as (k & data & Hk & Hlook & Hread).
      exists k, data. rewrite <- Hw1. split; [apply elem_of_cons; by right|done]. }
    destruct found as [a0|]; [|done].
    intros a [->|Ha]%elem_of_cons; [|by apply Hrest'].
    destruct (getArticleById_stored _ _ _ _ Hget) as (data & Hlook & Hread).
    exists id, data. split; [apply elem_of_cons; by left|done].
Qed.

Lemma loadArticles_ok (ids : list string) (w : World) :
  faults w = [] → ∃ l, loadArticles ids w = (Ok l, w).
Proof.
  intros Hf. induction ids as [|id ids IH]; cbn.
  - by eexists.
  - destruct IH as [l IH].
    unfold bind. rewrite (getArticleById_ok _ _ Hf), IH. by eexists.
Qed.

(** Every article of a listing was read from a document the main database
    holds. *)
Lemma getAllArticles_stored (sortField : string) (w : World) l w' :
  getAllArticles orderByDesc sortField w = (Ok l, w') →
  ∀ a, a ∈ l → ∃ k data, wikiArticles w !! k = Some data ∧ readOf k data a.
Proof.
  unfold getAllArticles, getAllArticleSummaries. unfold_async.
  destruct (faults w) as [|[] fs] eqn:Hf; cbn; [| done |].
  - destruct (loadArticles _ w) as [[l0|e] w0] eqn:Hload; [|done].
    intros [= <- <-] a Ha.
    destruct (loadArticles_stored _ _ _ _ Hload) as [_ Hin].
    destruct (Hin a Ha) as (k & data & _ & ? & ?). eauto.
  - destruct (loadArticles _ (withFaults fs w)) as [[l0|e] w0] eqn:Hload; [|done].
    intros [= <- <-] a Ha.
    destruct (loadArticles_stored _ _ _ _ Hload) as [_ Hin].
    destruct (Hin a Ha) as (k & data & _ & ? & ?). eauto.
Qed.

Lemma getAllArticles_ok (sortField : string) (w : World) :
  faults w = [] → ∃ l, getAllArticles orderByDesc sortField w = (Ok l, w).
Proof.
  intros Hf. unfold getAllArticles, getAllArticleSummaries. unfold_async.
  rewrite Hf. cbn.
  destruct (loadArticles_ok
              (map s_id (map snd (orderByDesc sortField (map_to_list (articleSummaries w)))))
              w Hf) as [l ->].
  by eexists.
Qed.

(** C8: [deleteArticle] issues the delete on the main database first and
    without any check; its outcome is the caller's.  The delete of the summary
    comes second: when it rejects, the failure is logged, the call still
    succeeds and the main document stays deleted; when neither call rejects
    (in particular when no call of the world rejects), the main document and
    the summary are both deleted.  After a successful call no listing of
    [getAllArticles] has an article read from [id], whether or not the
    summary is still there. *)
Theorem deleteArticle_best_effort (id : string) (w : World) :
  (∀ fs, faults w = true :: fs →
     ∃ w', deleteArticle id w = (Throw Unavailable, w')
       ∧ wikiArticles w' = wikiArticles w
       ∧ articleSummaries w' = articleSummaries w)
  ∧ (head (faults w) ≠ Some true →
     ∃ w', deleteArticle id w = (Ok tt, w')
       ∧ wikiArticles w' = delete id (wikiArticles w))
  ∧ (∀ fs, faults w = false :: true :: fs →
     ∃ w', deleteArticle id w = (Ok tt, w')
       ∧ wikiArticles w' = delete id (wikiArticles w)
       ∧ articleSummaries w' = articleSummaries w
       ∧ ErrSearchDbDelete ∈ console w')
  ∧ (head (faults w) ≠ Some true → head (tail (faults w)) ≠ Some true →
     ∃ w', deleteArticle id w = (Ok tt, w')
       ∧ wikiArticles w' = delete id (wikiArticles w)
       ∧ articleSummaries w' = delete id (articleSummaries w)
       ∧ wikiArticles w' !! id = None
       ∧ articleSummaries w' !! id = None
       ∧ console w' = console w)
  ∧ (faults w = [] →
     ∃ w', deleteArticle id w = (Ok tt, w')
       ∧ wikiArticles w' = delete id (wikiArticles w)
       ∧ articleSummaries w' = delete id (articleSummaries w))
  ∧ (∀ fs, faults w = false :: fs → head fs ≠ Some true →
     ∃ w', deleteArticle id w = (Ok tt, w')
       ∧ wikiArticles w' = delete id (wikiArticles w)
       ∧ articleSummaries w' = delete id (articleSummaries w))
  ∧ (∀ w', deleteArticle id w = (Ok tt, w') →
     wikiArticles w' !! id = None
     ∧ (∀ sortField l w'',
          getAllArticles orderByDesc sortField w' = (Ok l, w'') →
          ∀ a, a ∈ l →
            ∃ k data, k ≠ id ∧ wikiArticles w' !! k = Some data ∧ readOf k data a)
     ∧ (faults w' = [] →
        ∀ sortField, ∃ l, getAllArticles orderByDesc sortField w' = (Ok l, w'))).
Proof.
  assert (∀ w', deleteArticle id w = (Ok tt, w') → wikiArticles w' !! id = None)
    as Hgone.
  { unfold deleteArticle. unfold_async.
    destruct (faults w) as [|[] fs] eqn:Hf; cbn; rewrite ?Hf; cbn; [| done |];
      try destruct fs as [|[] fs]; cbn;
      intros w' [= <-]; cbn; apply lookup_delete_eq. }
  assert (head (faults w) ≠ Some true → head (tail (faults w)) ≠ Some true →
          ∃ w', deleteArticle id w = (Ok tt, w')
            ∧ wikiArticles w' = delete id (wikiArticles w)
            ∧ articleSummaries w' = delete id (articleSummaries w)
            ∧ wikiArticles w' !! id = None
            ∧ articleSummaries w' !! id = None
            ∧ console w' = console w) as Hboth.
  { intros Hhead Hnext. unfold deleteArticle. unfold_async.
    destruct (faults w) as [|[] fs] eqn:Hf; [| done |]; cbn; rewrite ?Hf; cbn;
      try destruct fs as [|[] fs]; cbn; try done;
      (eexists; split; [reflexivity|]; cbn;
       repeat split; try done; apply lookup_delete_eq). }
  split; [|split; [|split; [|split; [|split; [|split]]]]].
  - intros fs Hf. unfold deleteArticle. unfold_async. rewrite Hf. cbn.
    eexists; split; [reflexivity|done].
  - intros Hhead. unfold deleteArticle. unfold_async.
    destruct (faults w) as [|[] fs] eqn:Hf; [| done |]; cbn; rewrite ?Hf; cbn;
      try destruct fs as [|[] fs]; cbn;
      (eexists; split; [reflexivity|done]).
  - intros fs Hf. unfold deleteArticle. unfold_async. rewrite Hf. cbn.
    eexists; split; [reflexivity|]. cbn.
    repeat split; try done. set_solver.
  - exact Hboth.
  - intros Hf. destruct Hboth as (w' & ? & ? & ? & _); [by rewrite Hf..|].
    by exists w'.
  - intros fs Hf Hhead. destruct Hboth as (w' & ? & ? & ? & _); [by rewrite Hf..|].
    by exists w'.
  - intros w' Hdel. split; [by apply Hgone|]. split.
    + intros sortField l w'' Hlist a Ha.
      destruct (getAllArticles_stored _ _ _ _ Hlist a Ha) as (k & data & Hlook & Hread).
      exists k, data. repeat split; try done.
      intros ->. rewrite (Hgone _ Hdel) in Hlook. done.
    + intros Hf sortField. by apply getAllArticles_ok.
Qed.

(** *** Increments *)

Lemma lookup_insert_union {A} (k : string) (v : A) (m1 m2 : gmap string A) :
  (<[k := v]> m1 ∪ m2) !! k = Some v.
Proof. apply lookup_union_Some_l, lookup_insert_eq. Qed.

Ltac run_increment Hf Ha Hs Hne :=
  unfold getArticleById, updateAuthorScore, cacheUpdateArticleCount,
    clearArticleCountsCache, storedAuthorCounts;
  unfold_async;
  repeat (rewrite ?Hf, ?Ha, ?Hs, ?Hne; cbn);
  try (destruct (updateArticleCount _ _ _ _ _) as [?|]; cbn;
       repeat (rewrite ?Hf, ?Ha, ?Hs, ?Hne; cbn));
  destruct (countsArticle _) as [?|]; cbn;
  repeat (rewrite ?Hf, ?Ha, ?Hs, ?Hne, ?lookup_insert_eq, ?lookup_insert_union; cbn);
  (eexists; split; [reflexivity|]); cbn;
  rewrite ?lookup_insert_union; done.

(** A run of [incrementUsefulCount] in which no call rejects: the summary
    gets its counter and its score, the main database is left alone, and the
    entry of the author is the scan of [updateAuthorScore] with one more
    added to [usefulCount] by the block that follows it. *)
Lemma incrementUsefulCount_run (id : string) (w : World) a s :
  faults w = [] →
  wikiArticles w !! id = Some a →
  nonEmpty (a_authorId a) = true →
  articleSummaries w !! id = Some s →
  let newScore :=
    calculateArticleScore (a_content a) (Some (orZero (s_likeCount s)))
      (Some (orZero (s_usefulCount s) + 1)) (Some (orZero (s_dislikeCount s))) in
  let summaries' :=
    <[id := withRatingFields s (Some (orZero (s_usefulCount s) + 1)) (s_likeCount s)
              (s_dislikeCount s) newScore]> (articleSummaries w) in
  let totals := scanAuthor summaries' (a_authorId a) id newScore in
  ∃ w', incrementUsefulCount id w = (Ok tt, w')
    ∧ wikiArticles w' = wikiArticles w
    ∧ articleSummaries w' = summaries'
    ∧ storedAuthorCounts w' (a_authorId a) =
        Some {| ac_likeCount := ac_likeCount totals;
                ac_usefulCount := ac_usefulCount totals + 1;
                ac_articleScoreSum := ac_articleScoreSum totals;
                ac_articleCount := ac_articleCount totals |}.
Proof.
  intros Hf Ha Hne Hs newScore summaries' totals.
  unfold incrementUsefulCount. run_increment Hf Ha Hs Hne.
Qed.

Lemma incrementLikeCount_run (id : string) (w : World) a s :
  faults w = [] →
  wikiArticles w !! id = Some a →
  nonEmpty (a_authorId a) = true →
  articleSummaries w !! id = Some s →
  let newScore :=
    calculateArticleScore (a_content a) (Some (orZero (s_likeCount s) + 1))
      (Some (orZero (s_usefulCount s))) (Some (orZero (s_dislikeCount s))) in
  let summaries' :=
    <[id := withRatingFields s (s_usefulCount s) (Some (orZero (s_likeCount s) + 1))
              (s_dislikeCount s) newScore]> (articleSummaries w) in
  let totals := scanAuthor summaries' (a_authorId a) id newScore in
  ∃ w', incrementLikeCount id w = (Ok tt, w')
    ∧ wikiArticles w' = wikiArticles w
    ∧ articleSummaries w' = summaries'
    ∧ storedAuthorCounts w' (a_authorId a) =
        Some {| ac_likeCount := ac_likeCount totals + 1;
                ac_usefulCount := ac_usefulCount totals;
                ac_articleScoreSum := ac_articleScoreSum totals;
                ac_articleCount := ac_articleCount totals |}.
Proof.
  intros Hf Ha Hne Hs newScore summaries' totals.
  unfold incrementLikeCount. run_increment Hf Ha Hs Hne.
Qed.

Lemma incrementDislikeCount_run (id : string) (w : World) a s :
  faults w = [] →
  wikiArticles w !! id = Some a →
  nonEmpty (a_authorId a) = true →
  articleSummaries w !! id = Some s →
  let newScore :=
    calculateArticleScore (a_content a) (Some (orZero (s_likeCount s)))
      (Some (orZero (s_usefulCount s))) (Some (orZero (s_dislikeCount s) + 1)) in
  let summaries' :=
    <[id := withRatingFields s (s_usefulCount s) (s_likeCount s)
              (Some (orZero (s_dislikeCount s) + 1)) newScore]> (articleSummaries w) in
  ∃ w', incrementDislikeCount id true w = (Ok tt, w')
    ∧ wikiArticles w' = wikiArticles w
    ∧ articleSummaries w' = summaries'
    ∧ storedAuthorCounts w' (a_authorId a) =
        Some (scanAuthor summaries' (a_authorId a) id newScore).
Proof.
  intros Hf Ha Hne Hs newScore summaries'.
  unfold incrementDislikeCount. run_increment Hf Ha Hs Hne.
Qed.

(** What the three runs have in common: one summary rewritten, field by
    field. *)
Lemma ratedAs_insert (w w' : World) (id : string) (s : ArticleSummary)
    (usefulCount likeCount dislikeCount : option Z) (articleScore : Score) :
  wikiArticles w' = wikiArticles w →
  articleSummaries w' =
    <[id := withRatingFields s usefulCount likeCount dislikeCount articleScore]>
      (articleSummaries w) →
  ratedAs w w' id s usefulCount likeCount dislikeCount articleScore.
Proof.
  intros Hmain Hsum. split; [exact Hmain|]. split.
  - eexists. rewrite Hsum, lookup_insert_eq. split; [reflexivity|].
    by repeat split.
  - intros other Hother. rewrite Hsum. by apply lookup_insert_ne.
Qed.

(** C4 (as amended): for an article that both databases hold and that names
    its author, in a run in which no Firestore call rejects, each of
    [incrementLikeCount], [incrementUsefulCount] and
    [incrementDislikeCount] as admin succeeds, leaves the main database as it
    was and rewrites one summary only, the one of the article; there it adds
    one to its own counter, leaves the two other counters and each of the
    fields that are no rating as they were, and sets [articleScore] to the
    score of the content with the incremented counter and the two others. *)
Theorem increment_targets_one_counter (id : string) (w : World) a s :
  faults w = [] →
  wikiArticles w !! id = Some a →
  nonEmpty (a_authorId a) = true →
  articleSummaries w !! id = Some s →
  let likes := orZero (s_likeCount s) in
  let useful := orZero (s_usefulCount s) in
  let dislikes := orZero (s_dislikeCount s) in
  (∃ w', incrementLikeCount id w = (Ok tt, w')
     ∧ ratedAs w w' id s
         (s_usefulCount s) (Some (likes + 1)) (s_dislikeCount s)
         (calculateArticleScore (a_content a)
            (Some (likes + 1)) (Some useful) (Some dislikes)))
  ∧ (∃ w', incrementUsefulCount id w = (Ok tt, w')
     ∧ ratedAs w w' id s
         (Some (useful + 1)) (s_likeCount s) (s_dislikeCount s)
         (calculateArticleScore (a_content a)
            (Some likes) (Some (useful + 1)) (Some dislikes)))
  ∧ (∃ w', incrementDislikeCount id true w = (Ok tt, w')
     ∧ ratedAs w w' id s
         (s_usefulCount s) (s_likeCount s) (Some (dislikes + 1))
         (calculateArticleScore (a_content a)
            (Some likes) (Some useful) (Some (dislikes + 1)))).
Proof.
  intros Hf Ha Hne Hs likes useful dislikes. split; [|split].
  - destruct (incrementLikeCount_run id w a s Hf Ha Hne Hs)
      as (w' & Hrun & Hmain & Hsum & _).
    exists w'. split; [exact Hrun|]. by apply ratedAs_insert.
  - destruct (incrementUsefulCount_run id w a s Hf Ha Hne Hs)
      as (w' & Hrun & Hmain & Hsum & _).
    exists w'. split; [exact Hrun|]. by apply ratedAs_insert.
  - destruct (incrementDislikeCount_run id w a s Hf Ha Hne Hs)
      as (w' & Hrun & Hmain & Hsum & _).
    exists w'. split; [exact Hrun|]. by apply ratedAs_insert.
Qed.

(** *** The author aggregate after a rating *)

Lemma foldl_addSummary (articleId : string) (newScore : Score)
    (l : list (string * ArticleSummary)) :
  ∀ acc,
    let r := foldl (addSummary articleId newScore) acc l in
    ac_likeCount r = ac_likeCount acc + sumZ (map (fun kd => orZero (s_likeCount kd.2)) l)
    ∧ ac_usefulCount r
      = ac_usefulCount acc + sumZ (map (fun kd => orZero (s_usefulCount kd.2)) l)
    ∧ ac_articleCount r = ac_articleCount acc + Z.of_nat (length l)
    ∧ ac_articleScoreSum r
      = foldl (fun acc kd =>
                 score_add acc
                   (if bool_decide (kd.1 = articleId) then newScore
                    else scoreOr (s_articleScore kd.2)))
              (ac_articleScoreSum acc) l.
Proof.
  induction l as [|kd l IH]; intros acc; cbn [foldl map sumZ foldr length].
  - repeat split; try reflexivity; cbn; lia.
  - destruct (IH (addSummary articleId newScore acc kd)) as (Hl & Hu & Hc & Hs).
    cbn zeta in Hl, Hu, Hc, Hs. cbn zeta. rewrite Hl, Hu, Hc, Hs.
    unfold addSummary; cbn [ac_likeCount ac_usefulCount ac_articleCount ac_articleScoreSum].
    fold (sumZ (map (fun kd => orZero (s_likeCount kd.2)) l)).
    fold (sumZ (map (fun kd => orZero (s_usefulCount kd.2)) l)).
    repeat split; try reflexivity; lia.
Qed.

(** The scan of [updateAuthorScore] is the recomputation from scratch. *)
Lemma scanAuthor_recount (summaries : gmap string ArticleSummary)
    (authorId articleId : string) (newScore : Score) :
  let totals := scanAuthor summaries authorId articleId newScore in
  ac_likeCount totals = recountLikes summaries authorId
  ∧ ac_usefulCount totals = recountUseful summaries authorId
  ∧ ac_articleCount totals = recountArticles summaries authorId
  ∧ ac_articleScoreSum totals = resumScores summaries authorId articleId newScore.
Proof.
  unfold scanAuthor, recountLikes, recountUseful, recountArticles, resumScores.
  destruct (foldl_addSummary articleId newScore (authorSummaries summaries authorId)
              noAuthorCounts) as (Hl & Hu & Hc & Hs).
  cbn zeta in Hl, Hu, Hc, Hs. rewrite Hl, Hu, Hc, Hs. cbn.
  repeat split; try reflexivity; lia.
Qed.

(** What [updateAuthorScore] alone leaves in [counts/author] is the
    recomputation. *)
Lemma updateAuthorScore_recount (authorId articleId : string) (newScore : Score)
    (w : World) :
  faults w = [] →
  ∃ w' e, updateAuthorScore authorId articleId newScore w = (Ok tt, w')
    ∧ articleSummaries w' = articleSummaries w
    ∧ storedAuthorCounts w' authorId = Some e
    ∧ ac_likeCount e = recountLikes (articleSummaries w) authorId
    ∧ ac_usefulCount e = recountUseful (articleSummaries w) authorId
    ∧ ac_articleCount e = recountArticles (articleSummaries w) authorId
    ∧ ac_articleScoreSum e = resumScores (articleSummaries w) authorId articleId newScore.
Proof.
  intros Hf. unfold updateAuthorScore, storedAuthorCounts. unfold_async.
  repeat (rewrite ?Hf; cbn).
  eexists _, _. split; [reflexivity|]. cbn. rewrite lookup_insert_union.
  split; [done|]. split; [done|].
  apply scanAuthor_recount.
Qed.

(** After [incrementUsefulCount] the entry of the author agrees with the
    recomputation over the summaries as they now are in [articleCount],
    [likeCount] and [articleScoreSum], and is one above it in [usefulCount]:
    the increment was counted by the scan and added once more. *)
Lemma incrementUsefulCount_author_entry (id : string) (w : World) a s :
  faults w = [] →
  wikiArticles w !! id = Some a →
  nonEmpty (a_authorId a) = true →
  articleSummaries w !! id = Some s →
  ∃ w' e newScore,
    incrementUsefulCount id w = (Ok tt, w')
    ∧ (articleSummaries w' !! id ≫= s_articleScore) = Some newScore
    ∧ storedAuthorCounts w' (a_authorId a) = Some e
    ∧ ac_articleCount e = recountArticles (articleSummaries w') (a_authorId a)
    ∧ ac_likeCount e = recountLikes (articleSummaries w') (a_authorId a)
    ∧ ac_articleScoreSum e
      = resumScores (articleSummaries w') (a_authorId a) id newScore
    ∧ ac_usefulCount e = recountUseful (articleSummaries w') (a_authorId a) + 1.
Proof.
  intros Hf Ha Hne Hs.
  destruct (incrementUsefulCount_run id w a s Hf Ha Hne Hs)
    as (w' & Hrun & _ & Hsum & Hentry).
  eexists w', _, _. split; [exact Hrun|].
  rewrite Hsum. rewrite lookup_insert_eq. cbn. split; [reflexivity|].
  split; [exact Hentry|]. cbn.
  match goal with
  | |- context [scanAuthor ?m ?x ?y ?z] =>
      destruct (scanAuthor_recount m x y z) as (Hl & Hu & Hc & Hsc)
  end.
  cbn in *. rewrite Hl, Hu, Hc, Hsc. done.
Qed.

(** *** Creation and update *)

(** [date || now] is the date, unless it is the empty string. *)
Lemma dateOr_spec (d now : TimeValue) :
  (d = TimeString EmptyString → dateOr d now = now)
  ∧ (d ≠ TimeString EmptyString → dateOr d now = d).
Proof.
  destruct d as [[|c d]|t]; cbn; split; intros Hd; done.
Qed.

(** A run of [createArticle] in which no call rejects. *)
Lemma createArticle_run (article : WikiArticle) (w : World) :
  faults w = [] →
  let id := autoId w (allocated w) in
  let now := serverTimestamp w in
  let articleScore :=
    calculateArticleScore (a_content article)
      (Some (orZero (a_likeCount article))) (Some (orZero (a_usefulCount article)))
      (Some (orZero (a_dislikeCount article))) in
  ∃ w', createArticle article w = (Ok id, w')
    ∧ faults w' = []
    ∧ wikiArticles w' = <[id := mainDbArticle article now]> (wikiArticles w)
    ∧ articleSummaries w' =
        <[id := newSummary id article now articleScore]> (articleSummaries w).
Proof.
  intros Hf id now articleScore.
  unfold createArticle, updateAuthorScoreOnArticleCreate.
  unfold_async. repeat (rewrite ?Hf; cbn).
  destruct (countsAuthor w) as [d|]; cbn; repeat (rewrite ?Hf; cbn);
    (eexists; split; [reflexivity|]); done.
Qed.

(** C3 (as amended): in a run in which no Firestore call rejects,
    [createArticle] stores the article in the main database without its four
    rating fields; it computes the score from the content and the counters
    the article came with, each 0 where it is missing, and writes the summary
    with that score and those counters.  The main document and the summary
    carry the fields of the input that are no rating as they were put in,
    with two exceptions the code makes: [date] is the date of the input, or
    the server time when that date is empty, and [lastUpdated] is the server
    time.  Reading the article back gives these fields, the id of the
    document, and the counters and the score ([|| 0]) of the summary.  The counters
    are all 0, and the score the one of zero counts, when the article came
    with none. *)
Theorem createArticle_stores_input_counters (article : WikiArticle) (w : World) :
  faults w = [] →
  let id := autoId w (allocated w) in
  let now := serverTimestamp w in
  let date := dateOr (a_date article) now in
  let likes := orZero (a_likeCount article) in
  let useful := orZero (a_usefulCount article) in
  let dislikes := orZero (a_dislikeCount article) in
  let score :=
    calculateArticleScore (a_content article)
      (Some likes) (Some useful) (Some dislikes) in
  ∃ w' stored summary read,
    createArticle article w = (Ok id, w')
    ∧ (a_date article = TimeString EmptyString → date = now)
    ∧ (a_date article ≠ TimeString EmptyString → date = a_date article)
    ∧ wikiArticles w' !! id = Some stored
    ∧ sameFields stored article
    ∧ a_id stored = a_id article
    ∧ a_date stored = date
    ∧ a_lastUpdated stored = Some now
    ∧ a_usefulCount stored = None ∧ a_likeCount stored = None
    ∧ a_dislikeCount stored = None ∧ a_articleScore stored = None
    ∧ articleSummaries w' !! id = Some summary
    ∧ s_id summary = id
    ∧ s_title summary = a_title article
    ∧ s_description summary = a_description article
    ∧ s_tags summary = a_tags article
    ∧ s_author summary = a_author article
    ∧ s_authorId summary = a_authorId article
    ∧ s_imageUrl summary = a_imageUrl article
    ∧ s_date summary = date
    ∧ s_lastUpdated summary = Some now
    ∧ s_likeCount summary = Some likes
    ∧ s_usefulCount summary = Some useful
    ∧ s_dislikeCount summary = Some dislikes
    ∧ s_articleScore summary = Some score
    ∧ getArticleById id w' = (Ok (Some read), w')
    ∧ sameFields read article
    ∧ a_id read = Some (default id (a_id article))
    ∧ a_date read = date
    ∧ a_lastUpdated read = Some now
    ∧ a_likeCount read = Some likes
    ∧ a_usefulCount read = Some useful
    ∧ a_dislikeCount read = Some dislikes
    ∧ a_articleScore read = Some (scoreOr (Some score))
    ∧ (likes = 0 → useful = 0 → dislikes = 0 →
       s_articleScore summary =
         Some (calculateArticleScore (a_content article) (Some 0) (Some 0) (Some 0))
       ∧ a_likeCount read = Some 0 ∧ a_usefulCount read = Some 0
       ∧ a_dislikeCount read = Some 0).
Proof.
  intros Hf id now date likes useful dislikes score.
  destruct (createArticle_run article w Hf) as (w' & Hrun & Hf' & Hmain & Hsum).
  pose proof (getArticleById_ok id w' Hf') as Hread.
  rewrite Hmain, Hsum, !lookup_insert_eq in Hread.
  destruct (dateOr_spec (a_date article) now) as [Hempty Hgiven].
  eexists w', _, _, _. split; [exact Hrun|].
  split; [exact Hempty|]. split; [exact Hgiven|].
  rewrite Hmain, Hsum, !lookup_insert_eq.
  split; [reflexivity|]. split; [by repeat split|].
  do 7 (split; [reflexivity|]).
  split; [reflexivity|]. do 13 (split; [reflexivity|]).
  split; [exact Hread|]. split; [by repeat split|].
  split; [cbn; by destruct (a_id article)|].
  do 6 (split; [reflexivity|]).
  subst score likes useful dislikes. cbn. intros -> -> ->. done.
Qed.

(** A run of [updateArticle] in which no call rejects, on an article both
    databases hold: the main document takes the fields of [updateData] that
    are no rating and the new [lastUpdated]; the summary takes those of
    [title], [description], [tags], [author] and [imageUrl] that [updateData]
    has, the new [lastUpdated] and the score, which is computed from the
    counters of the summary and from [updateData.content || article.content]. *)
Lemma updateArticle_run (id : string) (updateData : ArticleUpdate) (w : World) a s :
  faults w = [] →
  wikiArticles w !! id = Some a →
  articleSummaries w !! id = Some s →
  let now := serverTimestamp w in
  let articleScore :=
    calculateArticleScore
      (stringOr (default EmptyString (u_content updateData)) (a_content a))
      (Some (orZero (s_likeCount s))) (Some (orZero (s_usefulCount s)))
      (Some (orZero (s_dislikeCount s))) in
  ∃ w', updateArticle id updateData w = (Ok tt, w')
    ∧ wikiArticles w' = <[id := applyMainDbUpdate updateData now a]> (wikiArticles w)
    ∧ articleSummaries w' =
        <[id := applySummaryUpdate (summaryUpdateData updateData now articleScore) s]>
          (articleSummaries w).
Proof.
  intros Hf Ha Hs now articleScore.
  unfold updateArticle, getArticleById, updateAuthorScore. unfold_async.
  repeat (rewrite ?Hf, ?Ha, ?Hs; cbn).
  match goal with
  | |- context [bool_decide ?P] => rewrite (bool_decide_eq_true_2 P) by lia
  end.
  repeat (rewrite ?Hf, ?Ha, ?Hs, ?lookup_insert_eq; cbn).
  destruct (nonEmpty (a_authorId a)); cbn; repeat (rewrite ?Hf, ?Ha, ?Hs; cbn);
    (eexists; split; [reflexivity|]); done.
Qed.

End Properties.

(** ** Further properties of the coordinator and the rating engine *)

Section Coverage.
Context `{CM : CacheManager}.
Variable orderByDesc :
  string → list (string * ArticleSummary) → list (string * ArticleSummary).

Ltac unfold_calls :=
  unfold getArticleDoc, addArticleDoc, updateArticleDoc, deleteArticleDoc,
    getSummaryDoc, setSummaryDoc, updateSummaryDoc, deleteSummaryDoc,
    getSummariesByAuthor, getSummariesOrderBy, getCountsArticleDoc,
    getCountsAuthorDoc, setCountsArticleDoc, setCountsAuthorDoc,
    mergeCountsArticleDoc, mergeCountsAuthorDoc, promiseAll,
    tryCatch, bind, ret, throw, reads, modify, logLine, firestore; cbn.

Lemma lookup_insert_union_other {A} (k k' : string) (v : A) (m : gmap string A) :
  k ≠ k' → (<[k := v]> m ∪ m) !! k' = m !! k'.
Proof.
  intros Hne. rewrite lookup_union, lookup_insert_ne by done.
  by destruct (m !! k').
Qed.

(** X1: with no rejection, [updateAuthorScoreOnArticleCreate] adds one to
    the [articleCount] of the author and the score to its [articleScoreSum]
    (the score alone starts the sum where [counts/author] did not exist),
    keeps its two counters, and leaves the entries of the other authors and
    everything else as they were. *)
Theorem updateAuthorScoreOnArticleCreate_folds (authorId : string) (articleScore : Score)
    (w : World) :
  faults w = [] →
  let current := default noAuthorCounts (storedAuthorCounts w authorId) in
  ∃ w' e, updateAuthorScoreOnArticleCreate authorId articleScore w = (Ok tt, w')
    ∧ storedAuthorCounts w' authorId = Some e
    ∧ ac_articleCount e = ac_articleCount current + 1
    ∧ ac_likeCount e = ac_likeCount current
    ∧ ac_usefulCount e = ac_usefulCount current
    ∧ ac_articleScoreSum e =
        match countsAuthor w with
        | Some _ => score_add (ac_articleScoreSum current) articleScore
        | None => articleScore
        end
    ∧ (∀ other, other ≠ authorId →
         storedAuthorCounts w' other = storedAuthorCounts w other)
    ∧ wikiArticles w' = wikiArticles w
    ∧ articleSummaries w' = articleSummaries w
    ∧ countsArticle w' = countsArticle w.
Proof.
  intros Hf current. subst current.
  unfold updateAuthorScoreOnArticleCreate, storedAuthorCounts. unfold_calls.
  repeat (rewrite ?Hf; cbn).
  destruct (countsAuthor w) as [d|] eqn:Hd; cbn; repeat (rewrite ?Hf, ?Hd; cbn).
  - eexists _, _. split; [reflexivity|]. cbn.
    rewrite lookup_insert_union. split; [reflexivity|]. cbn.
    repeat split; try done.
    intros other Hne. by rewrite lookup_insert_union_other.
  - eexists _, _. split; [reflexivity|]. cbn.
    rewrite lookup_singleton_eq. split; [reflexivity|]. cbn.
    repeat split; try done.
    intros other Hne. by rewrite lookup_singleton_ne.
Qed.

(** A run of [createArticle] with no rejection, with what it leaves of the
    aggregate of the author. *)
Lemma createArticle_full (article : WikiArticle) (w : World) :
  faults w = [] →
  let id := autoId w (allocated w) in
  let now := serverTimestamp w in
  let articleScore :=
    calculateArticleScore (a_content article)
      (Some (orZero (a_likeCount article))) (Some (orZero (a_usefulCount article)))
      (Some (orZero (a_dislikeCount article))) in
  let current := default noAuthorCounts (storedAuthorCounts w (a_authorId article)) in
  ∃ w' e, createArticle article w = (Ok id, w')
    ∧ faults w' = []
    ∧ wikiArticles w' = <[id := mainDbArticle article now]> (wikiArticles w)
    ∧ articleSummaries w' =
        <[id := newSummary id article now articleScore]> (articleSummaries w)
    ∧ countsArticle w' = countsArticle w
    ∧ cache w' = cache w
    ∧ storedAuthorCounts w' (a_authorId article) = Some e
    ∧ ac_articleCount e = ac_articleCount current + 1
    ∧ ac_likeCount e = ac_likeCount current
    ∧ ac_usefulCount e = ac_usefulCount current.
Proof.
  intros Hf id now articleScore current. subst current.
  unfold createArticle, updateAuthorScoreOnArticleCreate, storedAuthorCounts.
  unfold_calls. repeat (rewrite ?Hf; cbn).
  destruct (countsAuthor w) as [d|] eqn:Hd; cbn; repeat (rewrite ?Hf, ?Hd; cbn);
    eexists _, _; (split; [reflexivity|]); cbn;
    rewrite ?lookup_insert_union, ?lookup_singleton_eq; done.
Qed.

Lemma recountArticles_insert (m : gmap string ArticleSummary) (id : string)
    (s : ArticleSummary) (authorId : string) :
  m !! id = None →
  recountArticles (<[id := s]> m) authorId =
    recountArticles m authorId + (if bool_decide (s_authorId s = authorId) then 1 else 0).
Proof.
  intros Hfresh. unfold recountArticles, authorSummaries.
  rewrite (map_to_list_insert m id s Hfresh).
  destruct (decide (s_authorId s = authorId)) as [Heq|Hne].
  - rewrite filter_cons_True by (cbn; by apply bool_decide_pack).
    rewrite bool_decide_eq_true_2 by done. cbn [length]. lia.
  - rewrite filter_cons_False by (cbn; by intros ?%bool_decide_unpack).
    rewrite bool_decide_eq_false_2 by done. lia.
Qed.

(** X2: when the entry of the author counts as many articles as the author
    has summaries and the new id is not one of a summary, it still does after
    [createArticle]. *)
Theorem createArticle_keeps_articleCount (article : WikiArticle) (w : World) :
  faults w = [] →
  articleSummaries w !! autoId w (allocated w) = None →
  ac_articleCount (default noAuthorCounts (storedAuthorCounts w (a_authorId article)))
    = recountArticles (articleSummaries w) (a_authorId article) →
  ∃ w' e, createArticle article w = (Ok (autoId w (allocated w)), w')
    ∧ storedAuthorCounts w' (a_authorId article) = Some e
    ∧ ac_articleCount e = recountArticles (articleSummaries w') (a_authorId article).
Proof.
  intros Hf Hfresh Hinv.
  destruct (createArticle_full article w Hf)
    as (w' & e & Hrun & _ & _ & Hsum & _ & _ & He & Hcount & _).
  exists w', e. split; [exact Hrun|]. split; [exact He|].
  rewrite Hcount, Hinv, Hsum, recountArticles_insert by done. cbn.
  by rewrite bool_decide_eq_true_2.
Qed.

(** X3: when [addDoc] and the write of the summary are accepted and the
    read of [counts/author] that follows rejects, [createArticle] throws,
    deletes the article from the main database and leaves its summary behind:
    a summary with no article, which [getArticleById] does not find. *)
Theorem createArticle_aggregate_failure_orphans_summary (article : WikiArticle)
    (w : World) fs :
  faults w = false :: false :: true :: fs →
  head fs ≠ Some true →
  let id := autoId w (allocated w) in
  ∃ w' s, createArticle article w = (Throw (SearchDbWriteFailed Unavailable), w')
    ∧ wikiArticles w' !! id = None
    ∧ articleSummaries w' !! id = Some s
    ∧ s_authorId s = a_authorId article
    ∧ countsAuthor w' = countsAuthor w
    ∧ storedArticle w' id = None.
Proof.
  intros Hf Hhead id. unfold createArticle, updateAuthorScoreOnArticleCreate, storedArticle.
  unfold_calls. rewrite Hf. cbn.
  destruct fs as [|[] fs]; [| done |]; cbn;
    eexists _, _; (split; [reflexivity|]); cbn;
    rewrite lookup_delete_eq, lookup_insert_eq; done.
Qed.

(** X4: for an id with no article, or with an article that names no
    author, each of the three increments throws whatever the calls to come
    do, and writes nothing; with no rejection the error is "Article or author
    not found". *)
Theorem increment_unknown_article (id : string) (w : World) :
  wikiArticles w !! id = None
  ∨ (∃ a, wikiArticles w !! id = Some a ∧ a_authorId a = EmptyString) →
  ∀ m, m ∈ [incrementUsefulCount id; incrementLikeCount id;
             incrementDislikeCount id true] →
    ∃ e, failsUntouched m w e
      ∧ (faults w = [] → e = ArticleOrAuthorNotFound).
Proof.
  intros Hcase m Hm.
  assert (m = incrementUsefulCount id ∨ m = incrementLikeCount id
          ∨ m = incrementDislikeCount id true) as Hm'.
  { repeat (apply elem_of_cons in Hm as [Hm|Hm]; [by auto|]).
    by apply elem_of_nil in Hm. }
  unfold failsUntouched.
  destruct Hcase as [Hnone|(a & Ha & Hanon)];
    destruct Hm' as [->|[->| ->]];
    unfold incrementUsefulCount, incrementLikeCount, incrementDislikeCount,
      getArticleById; unfold_calls;
    destruct (faults w) as [|[] fs] eqn:Hf; cbn;
    rewrite ?Hnone, ?Ha, ?Hf; cbn;
    try (destruct fs as [|[] fs]; cbn);
    try (destruct (articleSummaries w !! id); cbn);
    rewrite ?Hanon; cbn;
    eexists; (split; [eexists; split; [reflexivity|done]|]); done.
Qed.

(** X5: for an article that has no summary, each of the three increments
    throws the "no such document" error of [updateDoc] and writes nothing:
    no aggregate is touched for a counter that could not be stored. *)
Theorem increment_without_summary (id : string) (w : World) a :
  faults w = [] →
  wikiArticles w !! id = Some a →
  nonEmpty (a_authorId a) = true →
  articleSummaries w !! id = None →
  ∀ m, m ∈ [incrementUsefulCount id; incrementLikeCount id;
             incrementDislikeCount id true] →
    failsUntouched m w DocNotFound.
Proof.
  intros Hf Ha Hne Hs m Hm.
  assert (m = incrementUsefulCount id ∨ m = incrementLikeCount id
          ∨ m = incrementDislikeCount id true) as Hm'.
  { repeat (apply elem_of_cons in Hm as [Hm|Hm]; [by auto|]).
    by apply elem_of_nil in Hm. }
  unfold failsUntouched.
  destruct Hm' as [->|[->| ->]];
    unfold incrementUsefulCount, incrementLikeCount, incrementDislikeCount,
      getArticleById; unfold_calls;
    repeat (rewrite ?Hf, ?Ha, ?Hs, ?Hne; cbn);
    (eexists; split; [reflexivity|done]).
Qed.



Lemma mergeArticleCounts_same (c : ArticleCounts) : mergeArticleCounts c c = c.
Proof. destruct c as [l u [d|]]; reflexivity. Qed.

Lemma merged_counts_other (k k' : string) (e : ArticleCounts)
    (m : gmap string ArticleCounts) :
  k ≠ k' →
  union_with (fun n o => Some (mergeArticleCounts n o)) (<[k := e]> m) m !! k' = m !! k'.
Proof.
  intros Hne. rewrite lookup_union_with, lookup_insert_ne by done.
  destruct (m !! k') as [o|]; cbn; [|done]. by rewrite mergeArticleCounts_same.
Qed.

Lemma merged_counts_same (k : string) (l u : Z) (m : gmap string ArticleCounts) :
  let old := default {| c_likeCount := 0; c_usefulCount := 0; c_dislikeCount := None |}
               (m !! k) in
  union_with (fun n o => Some (mergeArticleCounts n o))
    (<[k := {| c_likeCount := l; c_usefulCount := u;
               c_dislikeCount := c_dislikeCount old |}]> m) m !! k
  = Some {| c_likeCount := l; c_usefulCount := u; c_dislikeCount := c_dislikeCount old |}.
Proof.
  cbn. rewrite lookup_union_with, lookup_insert_eq.
  destruct (m !! k) as [[l0 u0 [d0|]]|]; reflexivity.
Qed.

(** X8: what [incrementLikeCount] does to [counts/article].  Where the
    document exists, the entry of the article gets one more like (from 0 if
    it had none) and keeps its other fields, and no other entry changes.
    Where it does not, it is created with the one entry, whose [likeCount] is
    read back from the summary after the increment and raised once more: two
    above the counter the summary had. *)
Theorem incrementLikeCount_article_counts (id : string) (w : World) a s :
  faults w = [] →
  wikiArticles w !! id = Some a →
  nonEmpty (a_authorId a) = true →
  articleSummaries w !! id = Some s →
  ∃ w' d', incrementLikeCount id w = (Ok tt, w')
    ∧ countsArticle w' = Some d'
    ∧ (∀ d, countsArticle w = Some d →
        let old := default {| c_likeCount := 0; c_usefulCount := 0;
                              c_dislikeCount := None |} (counts d !! id) in
        counts d' !! id =
          Some {| c_likeCount := c_likeCount old + 1;
                  c_usefulCount := c_usefulCount old;
                  c_dislikeCount := c_dislikeCount old |}
        ∧ ∀ other, other ≠ id → counts d' !! other = counts d !! other)
    ∧ (countsArticle w = None → 0 ≤ orZero (s_likeCount s) →
        counts d' =
          {[ id := {| c_likeCount := orZero (s_likeCount s) + 2;
                      c_usefulCount := orZero (s_usefulCount s);
                      c_dislikeCount := None |} ]}).
Proof.
  intros Hf Ha Hne Hs.
  unfold incrementLikeCount, getArticleById, updateAuthorScore, cacheUpdateArticleCount,
    clearArticleCountsCache.
  unfold_calls. repeat (rewrite ?Hf, ?Ha, ?Hs, ?Hne; cbn).
  destruct (updateArticleCount _ _ _ _ _) as [c|]; cbn;
    repeat (rewrite ?Hf, ?Ha, ?Hs, ?Hne; cbn);
    destruct (countsArticle w) as [d|] eqn:Hd; cbn;
    repeat (rewrite ?Hf, ?Ha, ?Hs, ?Hne, ?lookup_insert_eq, ?lookup_insert_union; cbn);
    eexists _, _; (split; [reflexivity|]); cbn; (split; [reflexivity|]); cbn;
    rewrite ?Hd; cbn;
    (split; [try done|try done]).
  all: try (by intros ? [=]).
  all: try (intros d0 [= <-]; split;
            [apply merged_counts_same | intros other Hother; by apply merged_counts_other]).
  all: intros _ Hpos;
    destruct (Z.eqb_spec (orZero (s_likeCount s) + 1) 0) as [Hz|_]; [lia|];
    replace (orZero (s_likeCount s) + 1 + 1) with (orZero (s_likeCount s) + 2) by lia;
    reflexivity.
Qed.


Lemma loadArticles_list (ids : list string) (w : World) :
  faults w = [] →
  loadArticles ids w = (Ok (omap (storedArticle w) ids), w).
Proof.
  intros Hf. induction ids as [|id ids IH]; cbn; [done|].
  unfold bind. rewrite (getArticleById_ok _ _ Hf), IH. unfold ret, storedArticle.
  destruct (wikiArticles w !! id); done.
Qed.

(** X10: with no rejection, [getAllArticles] lists the articles in the
    order of the sorted summaries, one for each summary whose id has a main
    document and none for the others, and changes nothing. *)
Theorem getAllArticles_lists_stored_in_order (sortField : string) (w : World) :
  faults w = [] →
  getAllArticles orderByDesc sortField w =
    (Ok (omap (storedArticle w)
           (map s_id (map snd (orderByDesc sortField (map_to_list (articleSummaries w)))))),
     w).
Proof.
  intros Hf. unfold getAllArticles, getAllArticleSummaries. unfold_calls.
  rewrite Hf. cbn. by rewrite (loadArticles_list _ w Hf).
Qed.

(** X11: whatever its outcome, [deleteArticle] touches neither aggregate
    document nor the cache, and no document of another id. *)
Theorem deleteArticle_touches_one_article (id : string) (w : World) r w' :
  deleteArticle id w = (r, w') →
  countsArticle w' = countsArticle w
  ∧ countsAuthor w' = countsAuthor w
  ∧ cache w' = cache w
  ∧ ∀ other, other ≠ id →
      wikiArticles w' !! other = wikiArticles w !! other
      ∧ articleSummaries w' !! other = articleSummaries w !! other.
Proof.
  unfold deleteArticle. unfold_calls.
  destruct (faults w) as [|[] fs] eqn:Hf; cbn; rewrite ?Hf; cbn;
    try (destruct fs as [|[] fs]; cbn);
    intros [= <- <-]; cbn; (split; [done|]); (split; [done|]); (split; [done|]);
    intros other Hother; rewrite ?lookup_delete_ne by done; done.
Qed.

(** X12: [createArticle] followed by [deleteArticle] of the new id gives
    back both databases as they were (the id being new to both), while the
    entry of the author keeps the article counted. *)
Theorem createArticle_then_deleteArticle (article : WikiArticle) (w : World) :
  faults w = [] →
  wikiArticles w !! autoId w (allocated w) = None →
  articleSummaries w !! autoId w (allocated w) = None →
  ∃ w1 w2 e,
    createArticle article w = (Ok (autoId w (allocated w)), w1)
    ∧ deleteArticle (autoId w (allocated w)) w1 = (Ok tt, w2)
    ∧ wikiArticles w2 = wikiArticles w
    ∧ articleSummaries w2 = articleSummaries w
    ∧ storedAuthorCounts w2 (a_authorId article) = Some e
    ∧ ac_articleCount e =
        ac_articleCount
          (default noAuthorCounts (storedAuthorCounts w (a_authorId article))) + 1.
Proof.
  intros Hf Hmain Hsum.
  destruct (createArticle_full article w Hf)
    as (w1 & e & Hrun & Hf1 & Hmain1 & Hsum1 & _ & _ & He & Hcount & _).
  eexists w1, _, e. split; [exact Hrun|].
  unfold deleteArticle. unfold_calls. rewrite Hf1. cbn. rewrite Hf1. cbn.
  split; [reflexivity|]. cbn.
  rewrite Hmain1, Hsum1, !delete_insert_eq, !delete_id by done.
  repeat split; done.
Qed.

(** A run of [incrementLikeCount] with no rejection leaves none to come. *)
Lemma incrementLikeCount_steady (id : string) (w : World) a s :
  faults w = [] →
  wikiArticles w !! id = Some a →
  nonEmpty (a_authorId a) = true →
  articleSummaries w !! id = Some s →
  ∃ w', incrementLikeCount id w = (Ok tt, w')
    ∧ faults w' = []
    ∧ wikiArticles w' = wikiArticles w
    ∧ articleSummaries w' =
        <[id := withRatingFields s (s_usefulCount s)
                  (Some (orZero (s_likeCount s) + 1)) (s_dislikeCount s)
                  (calculateArticleScore (a_content a)
                     (Some (orZero (s_likeCount s) + 1))
                     (Some (orZero (s_usefulCount s)))
                     (Some (orZero (s_dislikeCount s))))]>
          (articleSummaries w).
Proof.
  intros Hf Ha Hne Hs.
  unfold incrementLikeCount, getArticleById, updateAuthorScore, cacheUpdateArticleCount,
    clearArticleCountsCache.
  unfold_calls. repeat (rewrite ?Hf, ?Ha, ?Hs, ?Hne; cbn).
  destruct (updateArticleCount _ _ _ _ _) as [c|]; cbn;
    repeat (rewrite ?Hf, ?Ha, ?Hs, ?Hne; cbn);
    destruct (countsArticle w) as [d|] eqn:Hd; cbn;
    repeat (rewrite ?Hf, ?Ha, ?Hs, ?Hne, ?lookup_insert_eq; cbn);
    (eexists; split; [reflexivity|]); done.
Qed.

(** X13: [n] calls of [incrementLikeCount] in a row raise the counter of
    the summary by [n] and leave the two others; after the last the score is
    that of the content with the final counters. *)
Theorem repeated_likes_add_up (n : nat) (id : string) :
  ∀ (w : World) a s,
    faults w = [] →
    wikiArticles w !! id = Some a →
    nonEmpty (a_authorId a) = true →
    articleSummaries w !! id = Some s →
    ∃ w' s', repeatAsync n (incrementLikeCount id) w = (Ok tt, w')
      ∧ articleSummaries w' !! id = Some s'
      ∧ orZero (s_likeCount s') = orZero (s_likeCount s) + Z.of_nat n
      ∧ orZero (s_usefulCount s') = orZero (s_usefulCount s)
      ∧ orZero (s_dislikeCount s') = orZero (s_dislikeCount s)
      ∧ (n = O ∨
         s_articleScore s' =
           Some (calculateArticleScore (a_content a)
                   (Some (orZero (s_likeCount s) + Z.of_nat n))
                   (Some (orZero (s_usefulCount s)))
                   (Some (orZero (s_dislikeCount s))))).
Proof.
  induction n as [|n IH]; intros w a s Hf Ha Hne Hs.
  - exists w, s. cbn. unfold orZero. repeat split; try done; try lia; by left.
  - destruct (incrementLikeCount_steady id w a s Hf Ha Hne Hs)
      as (w1 & Hrun & Hf1 & Hmain1 & Hsum1).
    set (s1 := withRatingFields s (s_usefulCount s)
                 (Some (orZero (s_likeCount s) + 1)) (s_dislikeCount s)
                 (calculateArticleScore (a_content a)
                    (Some (orZero (s_likeCount s) + 1))
                    (Some (orZero (s_usefulCount s)))
                    (Some (orZero (s_dislikeCount s))))) in Hsum1 |- *.
    assert (articleSummaries w1 !! id = Some s1) as Hs1
      by (by rewrite Hsum1, lookup_insert_eq).
    assert (wikiArticles w1 !! id = Some a) as Ha1 by (by rewrite Hmain1).
    destruct (IH w1 a s1 Hf1 Ha1 Hne Hs1) as (w' & s' & Hrest & Hs' & Hl & Hu & Hd & Hscore).
    exists w', s'. cbn [repeatAsync]. unfold bind. rewrite Hrun, Hrest.
    split; [done|]. split; [done|].
    cbn in Hl, Hu, Hd. split; [lia|]. split; [done|]. split; [done|].
    right. destruct Hscore as [->|Hscore].
    + cbn in Hrest. unfold ret in Hrest. injection Hrest as <-.
      rewrite Hs1 in Hs'. injection Hs' as <-. cbn.
      repeat f_equal.
    + rewrite Hscore. subst s1.
      cbn [withRatingFields s_likeCount s_usefulCount s_dislikeCount].
      replace (orZero (Some (orZero (s_likeCount s) + 1)) + Z.of_nat n)
        with (orZero (s_likeCount s) + Z.of_nat (S n))
        by (change (orZero (Some (orZero (s_likeCount s) + 1)))
              with (orZero (s_likeCount s) + 1); lia).
      reflexivity.
Qed.

End Coverage.

(** ** Properties of the other collections *)

Section SiteProperties.
Context `{CM : CacheManager}.
Variable orderByDesc :
  string → list (string * ArticleSummary) → list (string * ArticleSummary).
Variable orderTagsDesc : list (string * TagDoc) → list (string * TagDoc).
Variable toISOString : Z → string.

Ltac unfold_site :=
  unfold roundTrip, onCore, andThen, attempt, done, fail, note, look, change,
    getSummariesByTag, getSummariesByAuthorOrderBy, getCountsArticleDoc,
    getCountsAuthorDoc, newDocId, getAllArticleSummaries, getSummariesOrderBy,
    tryCatch, bind, ret, throw, reads, modify, logLine, firestore; cbn.

Lemma hasEveryTag_spec (tagNames : list string) (a : ArticleSummary) :
  hasEveryTag tagNames a ↔ ∀ t, t ∈ tagNames → t ∈ s_tags a.
Proof.
  unfold hasEveryTag. rewrite Is_true_true, forallb_forall. split.
  - intros Hall t Ht. apply list_elem_of_In in Ht.
    specialize (Hall t Ht). by apply bool_decide_eq_true in Hall.
  - intros Hall t Ht. apply bool_decide_eq_true_2, Hall. by apply list_elem_of_In.
Qed.

(** X14: for a non-empty list of tags and with no rejection,
    [getArticlesByTags] returns exactly the stored summaries that carry every
    one of the tags. *)
Theorem getArticlesByTags_all_tags (tag0 : string) (rest : list string) (s : Site) :
  faults (core s) = [] →
  ∃ l s', getArticlesByTags orderByDesc (tag0 :: rest) s = (Done l, s')
    ∧ ∀ a, a ∈ l ↔
        ∃ k, articleSummaries (core s) !! k = Some a
             ∧ ∀ t, t ∈ tag0 :: rest → t ∈ s_tags a.
Proof.
  intros Hf. unfold getArticlesByTags. unfold_site. rewrite Hf. cbn.
  destruct rest as [|tag1 rest].
  - rewrite bool_decide_eq_false_2 by (cbn; lia).
    eexists _, _. split; [reflexivity|]. intros a.
    rewrite list_elem_of_fmap. split.
    + intros ([k a'] & -> & Hin). apply list_elem_of_filter in Hin as [Htag Hin].
      apply elem_of_map_to_list in Hin. exists k. split; [done|].
      intros t Ht. apply list_elem_of_singleton in Ht as ->.
      by apply bool_decide_unpack in Htag.
    + intros (k & Hk & Hall). exists (k, a). split; [done|].
      apply list_elem_of_filter. split; [|by apply elem_of_map_to_list].
      apply bool_decide_pack. apply Hall. by apply elem_of_cons; left.
  - rewrite bool_decide_eq_true_2 by (cbn; lia).
    eexists _, _. split; [reflexivity|]. intros a.
    rewrite list_elem_of_filter, list_elem_of_fmap. split.
    + intros [Hevery ([k a'] & -> & Hin)].
      apply list_elem_of_filter in Hin as [_ Hin].
      apply elem_of_map_to_list in Hin. exists k. split; [done|].
      by apply (hasEveryTag_spec (tag0 :: tag1 :: rest) a').
    + intros (k & Hk & Hall). split.
      * by apply (hasEveryTag_spec (tag0 :: tag1 :: rest) a).
      * exists (k, a). split; [done|].
        apply list_elem_of_filter. split; [|by apply elem_of_map_to_list].
        apply bool_decide_pack. apply Hall. by apply elem_of_cons; left.
Qed.

Lemma getUserArticleSummaries_result (authorId : string) (s : Site) :
  ∃ l s', getUserArticleSummaries orderByDesc authorId s = (Done l, s')
    ∧ wikiArticles (core s') = wikiArticles (core s)
    ∧ articleSummaries (core s') = articleSummaries (core s)
    ∧ (head (faults (core s)) = Some true → l = [])
    ∧ (head (faults (core s)) ≠ Some true →
       l = map snd (orderByDesc "date"
                      (filter (fun kd => bool_decide (s_authorId kd.2 = authorId))
                              (map_to_list (articleSummaries (core s)))))).
Proof.
  unfold getUserArticleSummaries. unfold_site.
  destruct (faults (core s)) as [|[] fs] eqn:Hf; cbn;
    eexists _, _; (split; [reflexivity|]); cbn; repeat split; done.
Qed.

(** X15: [getUserArticleSummaries] never throws: a rejected query gives
    the empty list.  Provided the ordering of Firestore returns documents of
    the query only, every summary it returns is stored and is one of the
    author. *)
Theorem getUserArticleSummaries_never_fails (authorId : string) (s : Site) :
  ∃ l s', getUserArticleSummaries orderByDesc authorId s = (Done l, s')
    ∧ (head (faults (core s)) = Some true → l = [])
    ∧ ((∀ f docs x, x ∈ orderByDesc f docs → x ∈ docs) →
       ∀ a, a ∈ l →
         s_authorId a = authorId ∧ ∃ k, articleSummaries (core s) !! k = Some a).
Proof.
  destruct (getUserArticleSummaries_result authorId s)
    as (l & s' & Hrun & _ & _ & Hrej & Hans).
  exists l, s'. split; [exact Hrun|]. split; [exact Hrej|].
  intros Hsub a Ha.
  destruct (decide (head (faults (core s)) = Some true)) as [Hh|Hh].
  - rewrite (Hrej Hh) in Ha. by apply elem_of_nil in Ha.
  - rewrite (Hans Hh) in Ha. apply list_elem_of_fmap in Ha as ([k a'] & -> & Hin).
    apply Hsub in Hin. apply list_elem_of_filter in Hin as [Hauthor Hin].
    apply elem_of_map_to_list in Hin. split; [by apply bool_decide_unpack in Hauthor|].
    by exists k.
Qed.


(** X17: [getArticleCounts] and [getAuthorCounts] never throw: they give
    the stored map when the read is answered (the empty map when the document
    is missing) and the empty map when it rejects; an entry of
    [getAuthorCounts] is the entry [getAuthorCountById] reads. *)
Theorem aggregate_maps_never_fail (s : Site) :
  (∃ m s', getArticleCounts s = (Done m, s')
     ∧ (head (faults (core s)) = Some true → m = ∅)
     ∧ (head (faults (core s)) ≠ Some true →
        m = from_option counts ∅ (countsArticle (core s))))
  ∧ (∃ m s', getAuthorCounts s = (Done m, s')
     ∧ (head (faults (core s)) = Some true → m = ∅)
     ∧ (head (faults (core s)) ≠ Some true →
        ∀ authorId, m !! authorId = storedAuthorCounts (core s) authorId)).
Proof.
  unfold getArticleCounts, getAuthorCounts, storedAuthorCounts. unfold_site.
  split.
  - destruct (faults (core s)) as [|[] fs] eqn:Hf; cbn;
      eexists _, _; (split; [reflexivity|]); repeat split; done.
  - destruct (faults (core s)) as [|[] fs] eqn:Hf; cbn;
      eexists _, _; (split; [reflexivity|]); (split; [done|]); try done;
      intros _ authorId; by destruct (countsAuthor (core s)).
Qed.

Lemma named_cons (t x : string) (l : list string) :
  named t (x :: l) = (if decide (x = t) then 1 else 0) + named t l.
Proof.
  unfold named. rewrite filter_cons. destruct (decide (x = t)); cbn [length]; lia.
Qed.

Lemma named_none (t : string) (l : list string) : t ∉ l → named t l = 0.
Proof.
  intros Hnot. induction l as [|x l IH]; [done|].
  rewrite named_cons. apply not_elem_of_cons in Hnot as [Hne Hnot].
  rewrite decide_False by done. rewrite IH by done. lia.
Qed.

Lemma countTags_run (now : TimeValue) (names : list string) :
  ∀ s : Site,
    faults (core s) = [] →
    ∃ s', promiseAllOf (map (countTag now) names) s = (Done tt, s')
      ∧ core s' = core s
      ∧ siteConsole s' = siteConsole s
      ∧ ∀ t,
          from_option t_count 0 (tags s' !! t)
            = from_option t_count 0 (tags s !! t) + named t names
          ∧ (t ∈ names → ∃ d, tags s' !! t = Some d ∧ t_lastUsed d = Some now)
          ∧ (t ∉ names → tags s' !! t = tags s !! t).
Proof.
  induction names as [|x names IH]; intros s Hf.
  - exists s. cbn. split; [done|]. split; [done|]. split; [done|]. intros t.
    split; [unfold named; cbn; lia|]. split; [|done].
    intros Hin. by apply elem_of_nil in Hin.
  - cbn [map promiseAllOf]. unfold countTag at 1. unfold_site. rewrite Hf. cbn.
    match goal with
    | |- context [promiseAllOf _ ?s1] =>
        destruct (IH s1) as (s' & Hrun & Hcore & Hlog & Htags); [by cbn|]
    end.
    rewrite Hrun. exists s'. split; [done|]. split; [by rewrite Hcore|].
    split; [by rewrite Hlog|]. intros t.
    destruct (Htags t) as (Hcount & Hin & Hout). cbn in Hcount, Hout.
    rewrite named_cons. destruct (decide (x = t)) as [->|Hne].
    + rewrite lookup_insert_eq in Hcount. cbn in Hcount.
      split; [lia|]. split.
      * intros _. destruct (decide (t ∈ names)) as [Hin'|Hout']; [by apply Hin|].
        rewrite (Hout Hout'), lookup_insert_eq. by eexists.
      * intros Hnot. exfalso. apply Hnot. by apply elem_of_cons; left.
    + rewrite lookup_insert_ne in Hcount by done.
      split; [lia|]. split.
      * intros Hin'. apply elem_of_cons in Hin' as [->|Hin']; [done|]. by apply Hin.
      * intros Hnot. apply not_elem_of_cons in Hnot as [_ Hnot].
        rewrite (Hout Hnot). by rewrite lookup_insert_ne.
Qed.

(** X18: with no rejection, [updateTags] raises the count of each tag by
    the number of times the list names it, creating the tag from 0, stamps
    the tags it names and leaves the others alone. *)
Theorem updateTags_counts_every_mention (names : list string) (s : Site) :
  faults (core s) = [] →
  ∃ s', updateTags names s = (Done tt, s')
    ∧ ∀ t,
        from_option t_count 0 (tags s' !! t)
          = from_option t_count 0 (tags s !! t) + named t names
        ∧ (t ∈ names →
           ∃ d, tags s' !! t = Some d ∧ t_lastUsed d = Some (serverTimestamp (core s)))
        ∧ (t ∉ names → tags s' !! t = tags s !! t).
Proof.
  intros Hf. unfold updateTags, attempt, andThen, look.
  destruct (countTags_run (serverTimestamp (core s)) names s Hf)
    as (s' & Hrun & _ & _ & Htags).
  rewrite Hrun. by exists s'.
Qed.

Lemma uncountTags_run (names : list string) :
  ∀ s : Site,
    faults (core s) = [] →
    ∃ r s', promiseAllOf (map uncountTag names) s = (r, s')
      ∧ core s' = core s
      ∧ siteConsole s' = siteConsole s
      ∧ ((∀ t, t ∈ names → is_Some (tags s !! t)) → r = Done tt)
      ∧ ((∃ t, t ∈ names ∧ tags s !! t = None) → r = Fail (StoreError DocNotFound))
      ∧ ∀ t,
          (tags s !! t = None → tags s' !! t = None)
          ∧ (∀ d, tags s !! t = Some d →
               tags s' !! t = Some {| t_count := t_count d - named t names;
                                      t_lastUsed := t_lastUsed d |}).
Proof.
  induction names as [|x names IH]; intros s Hf.
  - exists (Done tt), s. cbn. split; [done|]. split; [done|]. split; [done|].
    split; [done|]. split.
    + intros (t & Hin & _). by apply elem_of_nil in Hin.
    + intros t. split; [done|]. intros [c l] Hd. rewrite Hd. unfold named. cbn.
      do 2 f_equal; lia.
  - cbn [map promiseAllOf]. unfold uncountTag at 1. unfold_site. rewrite Hf. cbn.
    destruct (tags s !! x) as [dx|] eqn:Hx.
    + match goal with
      | |- context [promiseAllOf _ ?s1] =>
          destruct (IH s1) as (r & s' & Hrun & Hcore & Hlog & Hall & Hsome & Htags);
            [by cbn|]
      end.
      rewrite Hrun. exists r, s'. split; [done|]. split; [by rewrite Hcore|].
      split; [by rewrite Hlog|]. cbn in Hall, Hsome, Htags. split; [|split].
      * intros Hevery. apply Hall. intros t Ht.
        destruct (decide (x = t)) as [->|Hne]; [by rewrite lookup_insert_eq|].
        rewrite lookup_insert_ne by done. apply Hevery. by apply elem_of_cons; right.
      * intros (t & Ht & Hnone). apply Hsome.
        apply elem_of_cons in Ht as [->|Ht]; [congruence|].
        exists t. split; [done|].
        destruct (decide (x = t)) as [->|Hne]; [congruence|].
        by rewrite lookup_insert_ne.
      * intros t. destruct (Htags t) as [Hnone Hd]. rewrite named_cons.
        destruct (decide (x = t)) as [->|Hne].
        -- rewrite lookup_insert_eq in Hnone, Hd. split; [congruence|].
           intros d Hd'. rewrite Hx in Hd'. injection Hd' as <-.
           rewrite (Hd _ eq_refl). cbn. do 2 f_equal; lia.
        -- rewrite lookup_insert_ne in Hnone, Hd by done. split; [done|].
           intros d Hd'. rewrite (Hd d Hd'). do 2 f_equal; lia.
    + match goal with
      | |- context [promiseAllOf _ ?s1] =>
          destruct (IH s1) as (r & s' & Hrun & Hcore & Hlog & Hall & Hsome & Htags);
            [by cbn|]
      end.
      rewrite Hrun. eexists _, s'. split; [reflexivity|]. split; [by rewrite Hcore|].
      split; [by rewrite Hlog|]. cbn in Htags. split; [|split].
      * intros Hevery. destruct (Hevery x) as [? Hsomex]; [by apply elem_of_cons; left|].
        congruence.
      * done.
      * intros t. destruct (Htags t) as [Hnone Hd]. rewrite named_cons.
        destruct (decide (x = t)) as [->|Hne].
        -- split; [done|]. intros d Hd'. congruence.
        -- split; [done|]. intros d Hd'. rewrite (Hd d Hd'). do 2 f_equal; lia.
Qed.

(** X19: with no rejection, [decrementTags] lowers the count of every
    existing tag by the number of times the list names it, also when it
    fails: it fails, with the "no such document" error, exactly when the list
    names a tag that does not exist, and creates none. *)
Theorem decrementTags_runs_every_call (names : list string) (s : Site) :
  faults (core s) = [] →
  ∃ r s', decrementTags names s = (r, s')
    ∧ ((∀ t, t ∈ names → is_Some (tags s !! t)) → r = Done tt)
    ∧ ((∃ t, t ∈ names ∧ tags s !! t = None) → r = Fail (StoreError DocNotFound))
    ∧ ∀ t,
        (tags s !! t = None → tags s' !! t = None)
        ∧ (∀ d, tags s !! t = Some d →
             tags s' !! t = Some {| t_count := t_count d - named t names;
                                    t_lastUsed := t_lastUsed d |}).
Proof.
  intros Hf. unfold decrementTags, attempt.
  destruct (uncountTags_run names s Hf)
    as (r & s' & Hrun & _ & _ & Hall & Hsome & Htags).
  rewrite Hrun. destruct r as [[]|e].
  - exists (Done tt), s'. repeat split; try done; apply Htags.
  - unfold andThen, note, fail. eexists _, _. split; [reflexivity|]. cbn.
    split; [|split].
    + intros Hevery. by specialize (Hall Hevery).
    + intros Hex. specialize (Hsome Hex). congruence.
    + exact Htags.
Qed.

(** X20: [updateTags] followed by [decrementTags] of the same list gives
    every tag the count it had; a tag the first call created stays, at 0. *)
Theorem updateTags_then_decrementTags (names : list string) (s : Site) :
  faults (core s) = [] →
  ∃ s1 s2, updateTags names s = (Done tt, s1)
    ∧ decrementTags names s1 = (Done tt, s2)
    ∧ ∀ t,
        from_option t_count 0 (tags s2 !! t) = from_option t_count 0 (tags s !! t)
        ∧ (t ∈ names → is_Some (tags s2 !! t))
        ∧ (t ∉ names → tags s2 !! t = tags s !! t).
Proof.
  intros Hf. unfold updateTags, decrementTags, attempt, andThen, look.
  destruct (countTags_run (serverTimestamp (core s)) names s Hf)
    as (s1 & Hrun1 & Hcore1 & _ & Htags1).
  rewrite Hrun1.
  assert (faults (core s1) = []) as Hf1 by (by rewrite Hcore1).
  destruct (uncountTags_run names s1 Hf1)
    as (r & s2 & Hrun2 & _ & _ & Hall & _ & Htags2).
  assert (r = Done tt) as ->.
  { apply Hall. intros t Ht. destruct (Htags1 t) as (_ & Hin & _).
    destruct (Hin Ht) as (d & Hd & _). by eexists. }
  exists s1, s2. split; [done|]. rewrite Hrun2. split; [done|].
  intros t. destruct (Htags1 t) as (Hcount & Hin & Hout).
  destruct (Htags2 t) as (Hnone & Hsome).
  destruct (tags s1 !! t) as [d1|] eqn:Hd1.
  - rewrite (Hsome d1 eq_refl). cbn in Hcount, Hout |- *. split; [lia|]. split; [by eexists|].
    intros Hnot. rewrite named_none by done. rewrite <- (Hout Hnot).
    destruct d1. cbn. do 2 f_equal; lia.
  - rewrite (Hnone eq_refl). cbn in Hcount, Hout |- *. split.
    + destruct (decide (t ∈ names)) as [Hin'|Hout'].
      * destruct (Hin Hin') as (d & Hd & _). congruence.
      * rewrite named_none in Hcount by done. lia.
    + split.
      * intros Hin'. destruct (Hin Hin') as (d & Hd & _). congruence.
      * intros Hnot. by rewrite <- (Hout Hnot).
Qed.

Ltac unfold_docs :=
  unfold updateCommentDoc, updateReplyDoc, updateUserDoc, isUsernameTaken,
    registerUsername, removeUsername; unfold_site.

(** X21: with no rejection, [addComment] stores the comment under a new
    id with [replyCount] and [likeCount] 0 and the server time, whatever the
    comment came with there; no other comment and no article changes. *)
Theorem addComment_starts_from_zero (articleId : string) (comment : WikiComment)
    (s : Site) :
  faults (core s) = [] →
  let id := autoId (core s) (allocated (core s)) in
  ∃ s' c, addComment articleId comment s = (Done id, s')
    ∧ comments s' !! (articleId, id) = Some c
    ∧ cm_replyCount c = Some 0
    ∧ cm_likeCount c = Some 0
    ∧ cm_date c = serverTimestamp (core s)
    ∧ cm_content c = cm_content comment
    ∧ cm_author c = cm_author comment
    ∧ cm_authorId c = cm_authorId comment
    ∧ (∀ k, k ≠ (articleId, id) → comments s' !! k = comments s !! k)
    ∧ wikiArticles (core s') = wikiArticles (core s)
    ∧ articleSummaries (core s') = articleSummaries (core s).
Proof.
  intros Hf id. unfold addComment. unfold_site. rewrite Hf. cbn.
  eexists _, _. split; [reflexivity|]. cbn. rewrite lookup_insert_eq.
  split; [reflexivity|]. cbn. repeat split; try done.
  intros k Hk. by rewrite lookup_insert_ne.
Qed.

(** X22: with no rejection and an existing parent comment, [addReply]
    stores the reply under a new id with [likeCount] 0, the server time as
    its date and its other fields as they came, and adds one to the
    [replyCount] of the parent; every other field of the parent, the other
    comments and the other replies stay. *)
Theorem addReply_counts_the_reply (articleId commentId : string) (reply : WikiComment)
    (s : Site) parent :
  faults (core s) = [] →
  comments s !! (articleId, commentId) = Some parent →
  let id := autoId (core s) (allocated (core s)) in
  ∃ s' r p, addReply articleId commentId reply s = (Done id, s')
    ∧ replies s' !! (articleId, commentId, id) = Some r
    ∧ cm_likeCount r = Some 0
    ∧ cm_content r = cm_content reply
    ∧ comments s' !! (articleId, commentId) = Some p
    ∧ cm_replyCount p = Some (orZero (cm_replyCount parent) + 1)
    ∧ cm_likeCount p = cm_likeCount parent
    ∧ cm_content p = cm_content parent
    ∧ (∀ k, k ≠ (articleId, commentId) → comments s' !! k = comments s !! k)
    ∧ cm_id p = cm_id parent
    ∧ cm_author p = cm_author parent
    ∧ cm_authorId p = cm_authorId parent
    ∧ cm_date p = cm_date parent
    ∧ cm_parentId p = cm_parentId parent
    ∧ cm_id r = cm_id reply
    ∧ cm_author r = cm_author reply
    ∧ cm_authorId r = cm_authorId reply
    ∧ cm_date r = serverTimestamp (core s)
    ∧ cm_replyCount r = cm_replyCount reply
    ∧ cm_parentId r = cm_parentId reply
    ∧ (∀ k, k ≠ (articleId, commentId, id) → replies s' !! k = replies s !! k).
Proof.
  intros Hf Hparent id. unfold addReply. unfold_docs. rewrite Hf. cbn.
  rewrite Hf. cbn. rewrite Hparent.
  eexists _, _, _. split; [reflexivity|]. cbn. rewrite !lookup_insert_eq.
  split; [reflexivity|]. cbn. do 2 (split; [reflexivity|]).
  split; [reflexivity|]. cbn. do 3 (split; [done|]).
  split; [intros k Hk; by rewrite lookup_insert_ne|].
  do 11 (split; [reflexivity|]).
  intros k Hk. by rewrite lookup_insert_ne.
Qed.

(** X23: [addReply] writes the reply before it updates the parent: when
    the parent does not exist, or when its update rejects, the call fails and
    the reply stays stored. *)
Theorem addReply_keeps_the_reply_on_failure (articleId commentId : string)
    (reply : WikiComment) (s : Site) :
  let id := autoId (core s) (allocated (core s)) in
  (faults (core s) = [] → comments s !! (articleId, commentId) = None →
   ∃ s', addReply articleId commentId reply s = (Fail (StoreError DocNotFound), s')
     ∧ is_Some (replies s' !! (articleId, commentId, id))
     ∧ comments s' = comments s)
  ∧ (∀ fs, faults (core s) = false :: true :: fs →
     ∃ s', addReply articleId commentId reply s = (Fail (StoreError Unavailable), s')
       ∧ is_Some (replies s' !! (articleId, commentId, id))
       ∧ comments s' = comments s).
Proof.
  intros id. split.
  - intros Hf Hnone. unfold addReply. unfold_docs. rewrite Hf. cbn.
    rewrite Hf. cbn. rewrite Hnone.
    eexists. split; [reflexivity|]. cbn. rewrite lookup_insert_eq. split; [by eexists|done].
  - intros fs Hf. unfold addReply. unfold_docs. rewrite Hf. cbn.
    eexists. split; [reflexivity|]. cbn. rewrite lookup_insert_eq. split; [by eexists|done].
Qed.

(** X24: [incrementCommentLikeCount] and [incrementReplyLikeCount] add
    one like to the one document they name and change nothing else; for a
    document that does not exist they fail and change nothing. *)
Theorem comment_likes_touch_one_document (articleId commentId replyId : string)
    (s : Site) :
  (∀ c, faults (core s) = [] → comments s !! (articleId, commentId) = Some c →
     ∃ s', incrementCommentLikeCount articleId commentId s = (Done tt, s')
       ∧ comments s' = <[(articleId, commentId) := likeMore c]> (comments s)
       ∧ replies s' = replies s
       ∧ cm_likeCount (likeMore c) = Some (orZero (cm_likeCount c) + 1)
       ∧ cm_replyCount (likeMore c) = cm_replyCount c)
  ∧ (faults (core s) = [] → comments s !! (articleId, commentId) = None →
     ∃ s', incrementCommentLikeCount articleId commentId s
             = (Fail (StoreError DocNotFound), s')
       ∧ comments s' = comments s ∧ replies s' = replies s)
  ∧ (∀ r, faults (core s) = [] →
     replies s !! (articleId, commentId, replyId) = Some r →
     ∃ s', incrementReplyLikeCount articleId commentId replyId s = (Done tt, s')
       ∧ replies s' = <[(articleId, commentId, replyId) := likeMore r]> (replies s)
       ∧ comments s' = comments s)
  ∧ (faults (core s) = [] → replies s !! (articleId, commentId, replyId) = None →
     ∃ s', incrementReplyLikeCount articleId commentId replyId s
             = (Fail (StoreError DocNotFound), s')
       ∧ comments s' = comments s ∧ replies s' = replies s).
Proof.
  unfold incrementCommentLikeCount, incrementReplyLikeCount. unfold_docs.
  split; [|split; [|split]].
  - intros c Hf Hc. rewrite Hf. cbn. rewrite Hc.
    eexists. split; [reflexivity|]. done.
  - intros Hf Hc. rewrite Hf. cbn. rewrite Hc.
    eexists. split; [reflexivity|]. done.
  - intros r Hf Hr. rewrite Hf. cbn. rewrite Hr.
    eexists. split; [reflexivity|]. done.
  - intros Hf Hr. rewrite Hf. cbn. rewrite Hr.
    eexists. split; [reflexivity|]. done.
Qed.

Lemma elem_of_arrayUnion (x y : string) (l : list string) :
  y ∈ arrayUnion x l ↔ y = x ∨ y ∈ l.
Proof.
  unfold arrayUnion, includes. case_bool_decide as Hin.
  - split; [by right|]. by intros [->|?].
  - rewrite elem_of_app, list_elem_of_singleton.
    split; (intros [?|?]; [by right|by left]).
Qed.

Lemma elem_of_arrayRemove (x y : string) (l : list string) :
  y ∈ arrayRemove x l ↔ y ≠ x ∧ y ∈ l.
Proof. unfold arrayRemove. by rewrite list_elem_of_filter. Qed.

(** X25: [updateUsername] to a name that is registered (the user's own
    current name included) fails with "Username already in use", and for an
    unknown user with the error of [updateDoc]; in both cases no profile and
    no registered name changes. *)
Theorem updateUsername_refused (uid oldUsername newUsername : string) (s : Site) :
  faults (core s) = [] →
  (∀ l, userNames s = Some l → newUsername ∈ l →
     ∃ s', updateUsername uid oldUsername newUsername s = (Fail UsernameInUse, s')
       ∧ users s' = users s ∧ userNames s' = userNames s)
  ∧ (newUsername ∉ default [] (userNames s) → users s !! uid = None →
     ∃ s', updateUsername uid oldUsername newUsername s
             = (Fail (StoreError DocNotFound), s')
       ∧ users s' = users s
       ∧ userNames s' = Some (default [] (userNames s))).
Proof.
  intros Hf. unfold updateUsername. unfold_docs. split.
  - intros l Hl Hin. rewrite Hf. cbn. rewrite Hl. cbn.
    unfold includes. rewrite bool_decide_eq_true_2 by done.
    eexists. split; [reflexivity|]. done.
  - intros Hfree Huid. rewrite Hf. cbn.
    destruct (userNames s) as [l|] eqn:Hl; cbn in Hfree |- *.
    + unfold includes. rewrite bool_decide_eq_false_2 by done. cbn.
      rewrite Hf. cbn. rewrite Huid.
      eexists. split; [reflexivity|]. cbn. by rewrite Hl.
    + repeat (rewrite ?Hf, ?Huid; cbn).
      eexists. split; [reflexivity|]. done.
Qed.

(** X26: with no rejection, a known user and a free name,
    [updateUsername] sets [displayName] and [username] of the profile to the
    new name and leaves its other fields and the other profiles as they
    were, and leaves registered the new name and every name that was, but
    the old one. *)
Theorem updateUsername_moves_the_name (uid oldUsername newUsername : string)
    (s : Site) d :
  faults (core s) = [] →
  newUsername ∉ default [] (userNames s) →
  users s !! uid = Some d →
  ∃ s' l' d', updateUsername uid oldUsername newUsername s = (Done tt, s')
    ∧ users s' !! uid = Some d'
    ∧ ud_displayName d' = newUsername
    ∧ ud_username d' = Some newUsername
    ∧ ud_email d' = ud_email d
    ∧ ud_photoURL d' = ud_photoURL d
    ∧ ud_bio d' = ud_bio d
    ∧ ud_joinedAt d' = ud_joinedAt d
    ∧ ud_lastLoginAt d' = ud_lastLoginAt d
    ∧ ud_profileImage d' = ud_profileImage d
    ∧ ud_selectedBadge d' = ud_selectedBadge d
    ∧ (∀ other, other ≠ uid → users s' !! other = users s !! other)
    ∧ userNames s' = Some l'
    ∧ ∀ n, n ∈ l' ↔
        n = newUsername ∨ (n ≠ oldUsername ∧ n ∈ default [] (userNames s)).
Proof.
  intros Hf Hfree Huid. unfold updateUsername. unfold_docs. rewrite Hf. cbn.
  destruct (userNames s) as [l|] eqn:Hl; cbn in Hfree |- *.
  - unfold includes at 1. rewrite bool_decide_eq_false_2 by done. cbn.
    repeat (rewrite ?Hf, ?Huid, ?Hl; cbn).
    eexists _, _, _. split; [reflexivity|]. cbn. rewrite lookup_insert_eq.
    split; [reflexivity|]. do 9 (split; [reflexivity|]).
    split; [intros other Hother; by rewrite lookup_insert_ne|].
    split; [reflexivity|].
    intros n. by rewrite elem_of_arrayUnion, elem_of_arrayRemove.
  - repeat (rewrite ?Hf, ?Huid, ?Hl; cbn).
    eexists _, _, _. split; [reflexivity|]. cbn. rewrite lookup_insert_eq.
    split; [reflexivity|]. do 9 (split; [reflexivity|]).
    split; [intros other Hother; by rewrite lookup_insert_ne|].
    split; [reflexivity|].
    intros n. rewrite elem_of_arrayUnion. split; [intros [?|Hin]|intros [?|[_ Hin]]];
      try (by left); by apply elem_of_nil in Hin.
Qed.



(** X28: [isAdminEmail] never throws; it answers [true] only for an
    address in the stored list, and for every such address when the read is
    answered; it answers [false] when the read rejects (and logs the error),
    when the list is missing, and for an address that is not in the list. *)
Theorem isAdminEmail_never_fails (email : string) (s : Site) :
  ∃ b s', isAdminEmail email s = (Done b, s')
    ∧ (b = true → ∃ l, adminEmails s = Some l ∧ email ∈ l)
    ∧ (head (faults (core s)) ≠ Some true →
       ∀ l, adminEmails s = Some l → email ∈ l → b = true)
    ∧ (head (faults (core s)) = Some true →
       b = false ∧ ErrAdminCheck ∈ siteConsole s')
    ∧ (adminEmails s = None → b = false)
    ∧ (∀ l, adminEmails s = Some l → email ∉ l → b = false).
Proof.
  unfold isAdminEmail. unfold_site.
  destruct (faults (core s)) as [|[] fs] eqn:Hf; cbn;
    try (destruct (adminEmails s) as [l|] eqn:Hl; cbn);
    eexists _, _; (split; [reflexivity|]);
    (split; [first [done | intros Hb; exists l; split; [done|];
                            by apply bool_decide_eq_true in Hb]|]);
    (split; [first [done | intros _ l' [= <-] Hin; by apply bool_decide_eq_true_2]|]);
    (split; [first [done | intros _; split; [done|]; cbn;
                            apply elem_of_app; right; by apply list_elem_of_singleton]|]);
    (split; [try done|]);
    try done;
    try (intros l' [= <-] Hout; by apply bool_decide_eq_false_2).
Qed.

End SiteProperties.

(** ** The properties on the demo world *)

(** C1, the claim as it stands: whenever [addDoc] is accepted and the write
    of the summary rejects, no document is left under the new id.  It fails
    when the compensating [deleteDoc] rejects too. *)
Lemma createArticle_orphan_remains :
  ¬ (∀ (article : WikiArticle) (w : World) fs,
       faults w = false :: true :: fs →
       wikiArticles (createArticle article w).2 !! autoId w (allocated w) = None).
Proof.
  intros Hclaim.
  specialize (Hclaim demoArticle (emptyWorld [false; true; true]) [true] eq_refl).
  vm_compute in Hclaim. discriminate Hclaim.
Qed.

Lemma createArticle_compensation_witness :
  let w := emptyWorld [false; true; false] in
  ∃ w', createArticle demoArticle w = (Throw (SearchDbWriteFailed Unavailable), w')
    ∧ wikiArticles w' !! "a0" = None
    ∧ articleSummaries w' = articleSummaries w.
Proof.
  apply (proj1 (createArticle_compensation demoArticle
                  (emptyWorld [false; true; false])) [false]).
  - reflexivity.
  - vm_compute. discriminate.
Defined.

(** C2: on the world that holds the one article of author [u1], created
    with no ratings, [incrementUsefulCount] succeeds; the summaries of the
    author then sum to one "useful", and the entry of the author says two. *)
Theorem incrementUsefulCount_counts_useful_twice :
  let run := incrementUsefulCount "a0" (oneArticleWorld []) in
  run.1 = Ok tt
  ∧ recountUseful (articleSummaries run.2) "u1" = 1
  ∧ (ac_usefulCount <$> storedAuthorCounts run.2 "u1") = Some 2
  ∧ (ac_articleCount <$> storedAuthorCounts run.2 "u1")
    = Some (recountArticles (articleSummaries run.2) "u1")
  ∧ (ac_likeCount <$> storedAuthorCounts run.2 "u1")
    = Some (recountLikes (articleSummaries run.2) "u1").
Proof. repeat split; vm_compute; reflexivity. Qed.

(** C3, the claim as it stands: every valid article is stored with a
    summary whose counters are all 0 and whose score is that of zero counts.
    It fails for an article handed in with likes. *)
Lemma createArticle_keeps_given_counters :
  ¬ (∀ (article : WikiArticle) (w : World),
       validArticle article → faults w = [] →
       ∃ s, articleSummaries (createArticle article w).2 !! autoId w (allocated w) = Some s
         ∧ s_likeCount s = Some 0 ∧ s_usefulCount s = Some 0
         ∧ s_dislikeCount s = Some 0
         ∧ s_articleScore s =
             Some (calculateArticleScore (a_content article) (Some 0) (Some 0) (Some 0))).
Proof.
  intros Hclaim.
  destruct (Hclaim likedArticle (emptyWorld [])) as (s & Hs & Hlikes & _).
  - unfold validArticle. cbn. lia.
  - reflexivity.
  - vm_compute in Hs. injection Hs as <-. discriminate Hlikes.
Qed.

Lemma createArticle_stores_input_counters_witness :
  ∃ w' stored summary read,
    createArticle likedArticle (emptyWorld []) = (Ok "a0", w')
    ∧ wikiArticles w' !! "a0" = Some stored
    ∧ a_date stored = TimeString "2025-01-01"
    ∧ a_lastUpdated stored = Some (Timestamp 7)
    ∧ articleSummaries w' !! "a0" = Some summary
    ∧ s_imageUrl summary = Some "https://img.example/1.png"
    ∧ s_likeCount summary = Some 5
    ∧ s_articleScore summary =
        Some (calculateArticleScore "hello" (Some 5) (Some 0) (Some 0))
    ∧ getArticleById "a0" w' = (Ok (Some read), w')
    ∧ a_imageUrl read = Some "https://img.example/1.png"
    ∧ a_date read = TimeString "2025-01-01"
    ∧ a_likeCount read = Some 5.
Proof.
  destruct (createArticle_stores_input_counters likedArticle (emptyWorld []) eq_refl)
    as (w' & stored & summary & read & Hrun & _ & _ & Hmain & _ & _ & Hdate & Hupd
        & _ & _ & _ & _ & Hsum & _ & _ & _ & _ & _ & _ & Himg & _ & _ & Hl & _ & _
        & Hscore & Hread & Hrsame & _ & Hrdate & _ & Hrl & _).
  destruct Hrsame as (_ & _ & _ & _ & _ & _ & Hrimg & _).
  exists w', stored, summary, read.
  split; [exact Hrun|]. split; [exact Hmain|]. split; [exact Hdate|].
  split; [exact Hupd|]. split; [exact Hsum|]. split; [exact Himg|].
  split; [exact Hl|]. split; [exact Hscore|]. split; [exact Hread|].
  split; [exact Hrimg|]. split; [exact Hrdate|exact Hrl].
Defined.

(** C4, the claim as it stands: whatever article the main database holds, an
    increment succeeds and adds one to the counter of its summary.  It fails
    for the article [createArticle] left without a summary: the call throws
    and there is no counter. *)
Lemma increment_needs_a_summary :
  ¬ (∀ (id : string) (w : World) (a : WikiArticle),
       faults w = [] →
       wikiArticles w !! id = Some a →
       ∃ w' s', incrementLikeCount id w = (Ok tt, w')
         ∧ articleSummaries w' !! id = Some s'
         ∧ s_likeCount s' =
             Some (orZero (articleSummaries w !! id ≫= s_likeCount) + 1)).
Proof.
  intros Hclaim.
  destruct (Hclaim "a0" strandedArticleWorld (mainDbArticle likedArticle (Timestamp 7)))
    as (w' & s' & Hrun & _).
  - reflexivity.
  - vm_compute. reflexivity.
  - apply (f_equal fst) in Hrun. vm_compute in Hrun. discriminate Hrun.
Qed.

Lemma increment_targets_one_counter_witness :
  (∃ w' s', incrementLikeCount "a0" likedArticleWorld = (Ok tt, w')
     ∧ articleSummaries w' !! "a0" = Some s'
     ∧ s_likeCount s' = Some 6 ∧ s_usefulCount s' = Some 0
     ∧ s_dislikeCount s' = Some 0
     ∧ s_title s' = "t" ∧ s_imageUrl s' = Some "https://img.example/1.png"
     ∧ s_articleScore s' =
         Some (calculateArticleScore "hello" (Some 6) (Some 0) (Some 0)))
  ∧ (∃ w' s', incrementUsefulCount "a0" likedArticleWorld = (Ok tt, w')
       ∧ articleSummaries w' !! "a0" = Some s'
       ∧ s_likeCount s' = Some 5 ∧ s_usefulCount s' = Some 1
       ∧ s_dislikeCount s' = Some 0
       ∧ s_articleScore s' =
           Some (calculateArticleScore "hello" (Some 5) (Some 1) (Some 0)))
  ∧ (∃ w' s', incrementDislikeCount "a0" true likedArticleWorld = (Ok tt, w')
       ∧ articleSummaries w' !! "a0" = Some s'
       ∧ s_likeCount s' = Some 5 ∧ s_usefulCount s' = Some 0
       ∧ s_dislikeCount s' = Some 1
       ∧ s_articleScore s' =
           Some (calculateArticleScore "hello" (Some 5) (Some 0) (Some 1))).
Proof.
  destruct (increment_targets_one_counter "a0" likedArticleWorld
              (mainDbArticle likedArticle (Timestamp 7))
              (newSummary "a0" likedArticle (Timestamp 7) 15))
    as ((w1 & Hrun1 & _ & (s1 & Hs1 & Hsame1 & Hu1 & Hl1 & Hd1 & Hsc1) & _)
        & (w2 & Hrun2 & _ & (s2 & Hs2 & _ & Hu2 & Hl2 & Hd2 & Hsc2) & _)
        & (w3 & Hrun3 & _ & (s3 & Hs3 & _ & Hu3 & Hl3 & Hd3 & Hsc3) & _)).
  - reflexivity.
  - vm_compute. reflexivity.
  - reflexivity.
  - vm_compute. reflexivity.
  - destruct Hsame1 as (_ & Htitle & _ & _ & _ & _ & Himg & _).
    split; [|split].
    + exists w1, s1. split; [exact Hrun1|]. split; [exact Hs1|].
      split; [exact Hl1|]. split; [exact Hu1|]. split; [exact Hd1|].
      split; [exact Htitle|]. split; [exact Himg|exact Hsc1].
    + exists w2, s2. split; [exact Hrun2|]. split; [exact Hs2|].
      split; [exact Hl2|]. split; [exact Hu2|]. split; [exact Hd2|exact Hsc2].
    + exists w3, s3. split; [exact Hrun3|]. split; [exact Hs3|].
      split; [exact Hl3|]. split; [exact Hu3|]. split; [exact Hd3|exact Hsc3].
Defined.

Lemma updateArticle_not_found_witness :
  ∃ w', updateArticle "a1" (contentUpdate "new") (oneArticleWorld []) =
          (Throw ArticleNotFound, w')
    ∧ wikiArticles w' = wikiArticles (oneArticleWorld [])
    ∧ articleSummaries w' = articleSummaries (oneArticleWorld []).
Proof.
  destruct (updateArticle_not_found "a1" (contentUpdate "new") (oneArticleWorld []))
    as (e & w' & Hrun & Hmain & Hsum & _ & _ & _ & Herr).
  - vm_compute. reflexivity.
  - exists w'. rewrite Hrun, Herr; [done|]. vm_compute. discriminate.
Defined.

(** C7: on the world that holds the one article with content "hello",
    [updateArticle] with the empty string as new content succeeds and stores
    the empty content, and the score it writes is the score of "hello", which
    is not the score of the empty content. *)
Theorem updateArticle_empty_content_keeps_old_score :
  let run := updateArticle "a0" (contentUpdate EmptyString) (oneArticleWorld []) in
  run.1 = Ok tt
  ∧ (a_content <$> wikiArticles run.2 !! "a0") = Some EmptyString
  ∧ (articleSummaries run.2 !! "a0" ≫= s_articleScore)
    = Some (calculateArticleScore "hello" (Some 0) (Some 0) (Some 0))
  ∧ calculateArticleScore "hello" (Some 0) (Some 0) (Some 0)
    ≠ calculateArticleScore EmptyString (Some 0) (Some 0) (Some 0).
Proof.
  repeat split; try (vm_compute; reflexivity).
  vm_compute. discriminate.
Qed.

Lemma deleteArticle_best_effort_witness :
  (∃ w', deleteArticle "a0" (oneArticleWorld [false; true]) = (Ok tt, w')
     ∧ wikiArticles w' !! "a0" = None
     ∧ articleSummaries w' = articleSummaries (oneArticleWorld [false; true])
     ∧ ErrSearchDbDelete ∈ console w')
  ∧ (s_title <$> articleSummaries (oneArticleWorld []) !! "a0") = Some "t"
  ∧ ∃ w', deleteArticle "a0" (oneArticleWorld []) = (Ok tt, w')
      ∧ wikiArticles w' !! "a0" = None
      ∧ articleSummaries w' !! "a0" = None.
Proof.
  split; [|split; [vm_compute; reflexivity|]].
  - pose proof (deleteArticle_best_effort (fun _ docs => docs) "a0"
                  (oneArticleWorld [false; true]))
      as (_ & _ & Hkept & _ & _ & _ & Hlist).
    destruct (Hkept [] eq_refl) as (w' & Hrun & Hmain & Hsum & Hlog).
    destruct (Hlist w' Hrun) as (Hgone & _ & _).
    exists w'. split; [exact Hrun|]. split; [exact Hgone|].
    split; [exact Hsum|exact Hlog].
  - pose proof (deleteArticle_best_effort (fun _ docs => docs) "a0"
                  (oneArticleWorld []))
      as (_ & _ & _ & Hboth & _).
    destruct Hboth as (w' & Hrun & _ & _ & Hmain & Hsum & _);
      [vm_compute; discriminate..|].
    exists w'. split; [exact Hrun|]. split; [exact Hmain|exact Hsum].
Defined.

Lemma getAuthorCountById_averageScore_witness :
  ∃ v w', getAuthorCountById "u1" (oneArticleWorld []) = (Ok v, w')
    ∧ v_averageScore v = 5
    ∧ ∃ v0 w0, getAuthorCountById "nobody" (oneArticleWorld []) = (Ok v0, w0)
        ∧ v_averageScore v0 = 0.
Proof.
  destruct (getAuthorCountById_averageScore "u1" (oneArticleWorld []))
    as (v & w' & Hrun & _ & Havg & _ & _ & Hentry).
  destruct (getAuthorCountById_averageScore "nobody" (oneArticleWorld []))
    as (v0 & w0 & Hrun0 & _ & _ & _ & Hnone & _).
  exists v, w'. split; [exact Hrun|]. split.
  - rewrite Havg.
    rewrite (Hentry (@Build_AuthorCounts demoScore 0 0 5 1));
      [reflexivity | vm_compute; discriminate | vm_compute; reflexivity].
  - exists v0, w0. split; [exact Hrun0|].
    rewrite Hnone; [reflexivity | vm_compute; reflexivity].
Defined.

Lemma rating_reads_never_throw_witness :
  ∃ r w', getArticleRatings "a0" (oneArticleWorld [true]) = (Ok r, w')
    ∧ r = noRatings.
Proof.
  destruct (rating_reads_never_throw "a0" (oneArticleWorld [true]))
    as ((r & w' & Hrun & Hzero & _) & _).
  exists r, w'. split; [exact Hrun|].
  apply Hzero. right. reflexivity.
Defined.

(** ** The further properties on the demo world *)

Lemma updateAuthorScoreOnArticleCreate_folds_witness :
  ∃ w' e,
    updateAuthorScoreOnArticleCreate "u1" score_zero (oneArticleWorld []) = (Ok tt, w')
    ∧ storedAuthorCounts w' "u1" = Some e
    ∧ ac_articleCount e = 2.
Proof.
  destruct (updateAuthorScoreOnArticleCreate_folds "u1" score_zero (oneArticleWorld [])
              eq_refl) as (w' & e & Hrun & He & Hcount & _).
  exists w', e. split; [exact Hrun|]. split; [exact He|].
  rewrite Hcount. vm_compute. reflexivity.
Defined.

Lemma createArticle_keeps_articleCount_witness :
  ∃ w' e,
    createArticle demoArticle (emptyWorld []) = (Ok "a0", w')
    ∧ storedAuthorCounts w' "u1" = Some e
    ∧ ac_articleCount e = recountArticles (articleSummaries w') "u1".
Proof.
  apply (createArticle_keeps_articleCount demoArticle (emptyWorld [])).
  - reflexivity.
  - vm_compute. reflexivity.
  - vm_compute. reflexivity.
Defined.

Lemma createArticle_aggregate_failure_orphans_summary_witness :
  ∃ w' s,
    createArticle demoArticle (emptyWorld [false; false; true])
      = (Throw (SearchDbWriteFailed Unavailable), w')
    ∧ wikiArticles w' !! "a0" = None
    ∧ articleSummaries w' !! "a0" = Some s.
Proof.
  destruct (createArticle_aggregate_failure_orphans_summary demoArticle
              (emptyWorld [false; false; true]) [])
    as (w' & s & Hrun & Hmain & Hsum & _).
  - reflexivity.
  - vm_compute. discriminate.
  - exists w', s. split; [exact Hrun|]. split; [exact Hmain|exact Hsum].
Defined.

Lemma increment_unknown_article_witness :
  failsUntouched (incrementLikeCount "zz") (oneArticleWorld []) ArticleOrAuthorNotFound.
Proof.
  destruct (increment_unknown_article "zz" (oneArticleWorld [])) with
    (m := incrementLikeCount "zz") as (e & Hfails & Herr).
  - left. vm_compute. reflexivity.
  - apply elem_of_cons. right. apply elem_of_cons. left. reflexivity.
  - rewrite <- (Herr eq_refl). exact Hfails.
Defined.

Lemma increment_without_summary_witness :
  failsUntouched (incrementUsefulCount "a0") orphanArticleWorld DocNotFound.
Proof.
  apply (increment_without_summary "a0" orphanArticleWorld
           (mainDbArticle demoArticle (Timestamp 7))).
  - reflexivity.
  - vm_compute. reflexivity.
  - reflexivity.
  - vm_compute. reflexivity.
  - apply elem_of_cons. left. reflexivity.
Defined.



Lemma incrementLikeCount_article_counts_witness :
  ∃ w' d',
    incrementLikeCount "a0" (oneArticleWorld []) = (Ok tt, w')
    ∧ countsArticle w' = Some d'
    ∧ counts d' = {[ "a0" := {| c_likeCount := 2; c_usefulCount := 0;
                                c_dislikeCount := None |} ]}.
Proof.
  destruct (incrementLikeCount_article_counts "a0" (oneArticleWorld [])
              (mainDbArticle demoArticle (Timestamp 7))
              (newSummary "a0" demoArticle (Timestamp 7) 5))
    as (w' & d' & Hrun & Hd' & _ & Hnew).
  - reflexivity.
  - vm_compute. reflexivity.
  - reflexivity.
  - vm_compute. reflexivity.
  - exists w', d'. split; [exact Hrun|]. split; [exact Hd'|].
    apply Hnew; [vm_compute; reflexivity | cbn; lia].
Defined.


Lemma getAllArticles_lists_stored_in_order_witness :
  map fst (map_to_list (articleSummaries shelfWorld)) = ["q"; "r"; "p"]
  ∧ wikiArticles shelfWorld !! "r" = None
  ∧ ∃ l, getAllArticles byUsefulDesc "usefulCount" shelfWorld = (Ok l, shelfWorld)
      ∧ map a_title l = ["P"; "Q"]
      ∧ map a_usefulCount l = [Some 7; Some 1].
Proof.
  split; [vm_compute; reflexivity|]. split; [vm_compute; reflexivity|].
  rewrite (getAllArticles_lists_stored_in_order byUsefulDesc "usefulCount" shelfWorld
             eq_refl).
  eexists. split; [reflexivity|]. split; vm_compute; reflexivity.
Defined.

Lemma deleteArticle_touches_one_article_witness :
  countsAuthor (deleteArticle "a0" (oneArticleWorld [])).2
    = countsAuthor (oneArticleWorld []).
Proof.
  apply (deleteArticle_touches_one_article "a0" (oneArticleWorld [])
           (deleteArticle "a0" (oneArticleWorld [])).1
           (deleteArticle "a0" (oneArticleWorld [])).2).
  apply surjective_pairing.
Defined.

Lemma createArticle_then_deleteArticle_witness :
  ∃ w1 w2 e,
    createArticle demoArticle (emptyWorld []) = (Ok "a0", w1)
    ∧ deleteArticle "a0" w1 = (Ok tt, w2)
    ∧ wikiArticles w2 = ∅
    ∧ articleSummaries w2 = ∅
    ∧ storedAuthorCounts w2 "u1" = Some e
    ∧ ac_articleCount e = 1.
Proof.
  destruct (createArticle_then_deleteArticle demoArticle (emptyWorld []))
    as (w1 & w2 & e & Hrun1 & Hrun2 & Hmain & Hsum & He & Hcount).
  - reflexivity.
  - vm_compute. reflexivity.
  - vm_compute. reflexivity.
  - exists w1, w2, e. repeat split; assumption.
Defined.

Lemma repeated_likes_add_up_witness :
  ∃ w' s',
    repeatAsync 3 (incrementLikeCount "a0") (oneArticleWorld []) = (Ok tt, w')
    ∧ articleSummaries w' !! "a0" = Some s'
    ∧ orZero (s_likeCount s') = 3.
Proof.
  destruct (repeated_likes_add_up 3 "a0" (oneArticleWorld [])
              (mainDbArticle demoArticle (Timestamp 7))
              (newSummary "a0" demoArticle (Timestamp 7) 5))
    as (w' & s' & Hrun & Hs' & Hlikes & _).
  - reflexivity.
  - vm_compute. reflexivity.
  - reflexivity.
  - vm_compute. reflexivity.
  - exists w', s'. split; [exact Hrun|]. split; [exact Hs'|]. rewrite Hlikes. reflexivity.
Defined.

Lemma getArticlesByTags_all_tags_witness :
  let onBoth := newSummary "p" (shelved "P" ["x"; "y"] 7) (Timestamp 7) 26 in
  let onOne := newSummary "q" (shelved "Q" ["x"] 1) (Timestamp 7) 8 in
  articleSummaries shelfWorld !! "p" = Some onBoth
  ∧ articleSummaries shelfWorld !! "q" = Some onOne
  ∧ ∃ l s',
      getArticlesByTags byUsefulDesc ["x"; "y"] (shelfSite []) = (Done l, s')
      ∧ map s_title l = ["P"]
      ∧ onBoth ∈ l
      ∧ onOne ∉ l.
Proof.
  intros onBoth onOne.
  split; [vm_compute; reflexivity|]. split; [vm_compute; reflexivity|].
  destruct (getArticlesByTags_all_tags byUsefulDesc "x" ["y"] (shelfSite []) eq_refl)
    as (l & s' & Hrun & Hspec).
  exists l, s'. split; [exact Hrun|]. split; [|split].
  - assert (match (getArticlesByTags byUsefulDesc ["x"; "y"] (shelfSite [])).1 with
            | Done l0 => map s_title l0
            | Fail _ => []
            end = ["P"]) as Htitles by (vm_compute; reflexivity).
    rewrite Hrun in Htitles. exact Htitles.
  - apply Hspec. exists "p". split; [vm_compute; reflexivity|].
    intros t Ht. exact Ht.
  - intros Hin. apply Hspec in Hin as (k & _ & Hall).
    specialize (Hall "y" ltac:(apply elem_of_cons; right; apply elem_of_cons; by left)).
    apply list_elem_of_singleton in Hall. discriminate Hall.
Defined.

Lemma getUserArticleSummaries_never_fails_witness :
  ∃ l s',
    getUserArticleSummaries asListed "u1" (demoSite []) = (Done l, s')
    ∧ ∀ a, a ∈ l → s_authorId a = "u1".
Proof.
  destruct (getUserArticleSummaries_never_fails asListed "u1" (demoSite []))
    as (l & s' & Hrun & _ & Hfrom).
  exists l, s'. split; [exact Hrun|].
  intros a Ha. apply (Hfrom (fun _ _ _ Hin => Hin) a Ha).
Defined.


Lemma aggregate_maps_never_fail_witness :
  ∃ m s', getAuthorCounts (demoSite [true]) = (Done m, s') ∧ m = ∅.
Proof.
  destruct (proj2 (aggregate_maps_never_fail (demoSite [true])))
    as (m & s' & Hrun & Hrej & _).
  exists m, s'. split; [exact Hrun|]. apply Hrej. reflexivity.
Defined.

Lemma updateTags_counts_every_mention_witness :
  ∃ s',
    updateTags ["x"; "y"; "x"] (demoSite []) = (Done tt, s')
    ∧ from_option t_count 0 (tags s' !! "x") = 3
    ∧ from_option t_count 0 (tags s' !! "y") = 1.
Proof.
  destruct (updateTags_counts_every_mention ["x"; "y"; "x"] (demoSite []) eq_refl)
    as (s' & Hrun & Htags).
  exists s'. split; [exact Hrun|].
  rewrite (proj1 (Htags "x")), (proj1 (Htags "y")).
  split; vm_compute; reflexivity.
Defined.

Lemma decrementTags_runs_every_call_witness :
  ∃ s',
    decrementTags ["nope"; "x"] (demoSite []) = (Fail (StoreError DocNotFound), s')
    ∧ (t_count <$> tags s' !! "x") = Some 0
    ∧ tags s' !! "nope" = None.
Proof.
  destruct (decrementTags_runs_every_call ["nope"; "x"] (demoSite []) eq_refl)
    as (r & s' & Hrun & _ & Hfail & Htags).
  exists s'. split.
  - rewrite Hrun. f_equal. apply Hfail. exists "nope". split.
    + apply elem_of_cons. left. reflexivity.
    + vm_compute. reflexivity.
  - split.
    + rewrite (proj2 (Htags "x") {| t_count := 1; t_lastUsed := None |});
        vm_compute; reflexivity.
    + apply (proj1 (Htags "nope")). vm_compute. reflexivity.
Defined.

Lemma updateTags_then_decrementTags_witness :
  ∃ s1 s2,
    updateTags ["x"; "y"] (demoSite []) = (Done tt, s1)
    ∧ decrementTags ["x"; "y"] s1 = (Done tt, s2)
    ∧ from_option t_count 0 (tags s2 !! "x") = 1
    ∧ is_Some (tags s2 !! "y").
Proof.
  destruct (updateTags_then_decrementTags ["x"; "y"] (demoSite []) eq_refl)
    as (s1 & s2 & Hrun1 & Hrun2 & Htags).
  exists s1, s2. split; [exact Hrun1|]. split; [exact Hrun2|]. split.
  - rewrite (proj1 (Htags "x")). vm_compute. reflexivity.
  - apply (proj1 (proj2 (Htags "y"))).
    apply elem_of_cons. right. apply elem_of_cons. left. reflexivity.
Defined.

Lemma addComment_starts_from_zero_witness :
  ∃ s' c,
    addComment "a0" demoComment (demoSite []) = (Done "a1", s')
    ∧ comments s' !! ("a0", "a1") = Some c
    ∧ cm_likeCount c = Some 0.
Proof.
  destruct (addComment_starts_from_zero "a0" demoComment (demoSite []) eq_refl)
    as (s' & c & Hrun & Hc & _ & Hlikes & _).
  exists s', c. split; [exact Hrun|]. split; [exact Hc|exact Hlikes].
Defined.

Lemma addReply_counts_the_reply_witness :
  ∃ s' r p,
    addReply "a0" "c0" demoComment (demoSite []) = (Done "a1", s')
    ∧ replies s' !! ("a0", "c0", "a1") = Some r
    ∧ cm_likeCount r = Some 0
    ∧ cm_date r = Timestamp 7
    ∧ comments s' !! ("a0", "c0") = Some p
    ∧ cm_replyCount p = Some 1
    ∧ cm_likeCount p = Some 4
    ∧ cm_author p = Some "A"
    ∧ cm_date p = Timestamp 5.
Proof.
  destruct (addReply_counts_the_reply "a0" "c0" demoComment (demoSite []) demoComment)
    as (s' & r & p & Hrun & Hr & Hzero & _ & Hp & Hcount & Hlikes & _ & _ & _
        & Hauthor & _ & Hdate & _ & _ & _ & _ & Hrdate & _).
  - reflexivity.
  - vm_compute. reflexivity.
  - exists s', r, p. split; [exact Hrun|]. split; [exact Hr|].
    split; [exact Hzero|]. split; [exact Hrdate|]. split; [exact Hp|].
    split; [exact Hcount|]. split; [exact Hlikes|]. split; [exact Hauthor|exact Hdate].
Defined.

Lemma addReply_keeps_the_reply_on_failure_witness :
  ∃ s',
    addReply "a0" "gone" demoComment (demoSite []) = (Fail (StoreError DocNotFound), s')
    ∧ is_Some (replies s' !! ("a0", "gone", "a1")).
Proof.
  destruct (proj1 (addReply_keeps_the_reply_on_failure "a0" "gone" demoComment
                     (demoSite [])))
    as (s' & Hrun & Hkept & _).
  - reflexivity.
  - vm_compute. reflexivity.
  - exists s'. split; [exact Hrun|exact Hkept].
Defined.

Lemma comment_likes_touch_one_document_witness :
  ∃ s',
    incrementCommentLikeCount "a0" "c0" (demoSite []) = (Done tt, s')
    ∧ (comments s' !! ("a0", "c0") ≫= cm_likeCount) = Some 5.
Proof.
  destruct (proj1 (comment_likes_touch_one_document "a0" "c0" "r0" (demoSite []))
              demoComment)
    as (s' & Hrun & Hcomments & _).
  - reflexivity.
  - vm_compute. reflexivity.
  - exists s'. split; [exact Hrun|]. rewrite Hcomments, lookup_insert_eq. reflexivity.
Defined.

Lemma updateUsername_refused_witness :
  ∃ s',
    updateUsername "u1" "A" "A" (demoSite []) = (Fail UsernameInUse, s')
    ∧ userNames s' = Some ["A"].
Proof.
  destruct (proj1 (updateUsername_refused "u1" "A" "A" (demoSite []) eq_refl) ["A"])
    as (s' & Hrun & _ & Hnames).
  - reflexivity.
  - apply elem_of_cons. left. reflexivity.
  - exists s'. split; [exact Hrun|exact Hnames].
Defined.

Lemma updateUsername_moves_the_name_witness :
  ∃ s' l' d',
    updateUsername "u1" "A" "B" (demoSite []) = (Done tt, s')
    ∧ users s' !! "u1" = Some d'
    ∧ ud_displayName d' = "B"
    ∧ ud_username d' = Some "B"
    ∧ ud_joinedAt d' = "2025-01-01"
    ∧ userNames s' = Some l'
    ∧ "B" ∈ l' ∧ "A" ∉ l'.
Proof.
  destruct (updateUsername_moves_the_name "u1" "A" "B" (demoSite []) demoUser)
    as (s' & l' & d' & Hrun & Hd & Hdisplay & Hname & _ & _ & _ & Hjoined & _ & _ & _
        & _ & Hnames & Hspec).
  - reflexivity.
  - cbn. intros Hin. apply list_elem_of_singleton in Hin. discriminate Hin.
  - vm_compute. reflexivity.
  - exists s', l', d'. split; [exact Hrun|]. split; [exact Hd|].
    split; [exact Hdisplay|]. split; [exact Hname|]. split; [exact Hjoined|].
    split; [exact Hnames|]. split.
    + apply Hspec. left. reflexivity.
    + intros Hin. apply Hspec in Hin as [Heq|[Hne _]]; [discriminate Heq|].
      apply Hne. reflexivity.
Defined.


Lemma isAdminEmail_never_fails_witness :
  (∃ s', isAdminEmail "root@example.com" (demoSite []) = (Done true, s'))
  ∧ (∃ s', isAdminEmail "guest@example.com" (demoSite []) = (Done false, s'))
  ∧ ∃ s', isAdminEmail "root@example.com" (demoSite [true]) = (Done false, s')
      ∧ ErrAdminCheck ∈ siteConsole s'.
Proof.
  split; [|split].
  - destruct (isAdminEmail_never_fails "root@example.com" (demoSite []))
      as (b & s' & Hrun & _ & Hyes & _).
    exists s'. rewrite Hrun. f_equal. f_equal.
    apply (Hyes ltac:(vm_compute; discriminate) ["root@example.com"] eq_refl).
    apply elem_of_cons. left. reflexivity.
  - destruct (isAdminEmail_never_fails "guest@example.com" (demoSite []))
      as (b & s' & Hrun & _ & _ & _ & _ & Hno).
    exists s'. rewrite Hrun. f_equal. f_equal.
    apply (Hno ["root@example.com"] eq_refl).
    intros Hin. apply list_elem_of_singleton in Hin. discriminate Hin.
  - destruct (isAdminEmail_never_fails "root@example.com" (demoSite [true]))
      as (b & s' & Hrun & _ & _ & Hrej & _).
    destruct (Hrej eq_refl) as [Hb Hlog].
    exists s'. split; [|exact Hlog]. rewrite Hrun. f_equal. f_equal. exact Hb.
Defined.
